(** * KatelyaTV search endpoint: [src/app/api/search/route.ts]

    A shallow embedding of the [GET] handler of the search route and the
    proofs of its filter-policy, failure-isolation and cache-header
    properties.

    The handler talks to five collaborators that live in other modules of
    the application ([getCacheTime], [getStorage], [getAvailableApiSites],
    [searchFromApi], [addCorsHeaders]).  They are taken as parameters,
    gathered in the record [Collaborators]; every call to one of them is
    logged in a trace, so that statements such as "the filter passed to
    getAvailableApiSites" or "no provider is queried" can be read off a
    run.

    The handler is translated twice.  The first translation takes the
    collaborators at their types: the configuration and storage calls may
    throw, a provider search yields a promise, responses get built.  It
    carries the properties of the filter policy, of the user name and of
    the results.  The second, in [Fallible], lets every call throw and
    the cache time be any number; it carries what the handler does when
    something fails and what it writes in the cache headers.
    [typed_handler_is_fallible_handler] relates the two. *)

From Stdlib Require Import String Ascii List ZArith Bool Lia.
From Stdlib Require Import DecimalString DecimalPos DecimalZ.
Import ListNotations.
Local Open Scope string_scope.
Local Open Scope list_scope.

(* ================================================================= *)
(** ** JavaScript values and operators *)

Module Js.

(** The values that cross the handler: user settings, search results and
    the JSON body.  Numbers are restricted to integers, the only ones the
    handler meets (a cache duration in seconds). *)
#[warnings="-register-all"]
Inductive JsValue : Type :=
| JsUndefined
| JsNull
| JsBool (b : bool)
| JsNumber (n : Z)
| JsString (s : string)
| JsArray (items : list JsValue)
| JsObject (fields : list (string * JsValue)).

(** A call either returns (an awaited promise fulfills) or throws (an
    awaited promise rejects).  No handler of the route inspects the
    thrown value, so it carries none. *)
Inductive Outcome (A : Type) : Type :=
| Returned (a : A)
| Thrown.
Arguments Returned {A} a.
Arguments Thrown {A}.

(** Truthiness of a [string | null | undefined]: [None] stands for
    [null]/[undefined], and the empty string is falsy too. *)
Definition truthy (s : option string) : bool :=
  match s with
  | Some v => negb (v =? "")
  | None => false
  end.

(** [x || undefined] on a [string | null]. *)
Definition or_undefined (s : option string) : option string :=
  if truthy s then s else None.

(** [s.startsWith(p)] *)
Definition startsWith (s p : string) : bool := String.prefix p s.

(** [s.substring(n)]: what is left of [s] after its first [n] code units. *)
Fixpoint substring (n : nat) (s : string) : string :=
  match n, s with
  | O, _ => s
  | S _, EmptyString => EmptyString
  | S n', String _ s' => substring n' s'
  end.

(** Property lookup on an object literal (first binding wins; a missing
    property reads [undefined]); primitives have no such own property. *)
Fixpoint assoc (fields : list (string * JsValue)) (name : string) : JsValue :=
  match fields with
  | [] => JsUndefined
  | (k, v) :: rest => if k =? name then v else assoc rest name
  end.

Definition prop (v : JsValue) (name : string) : JsValue :=
  match v with
  | JsObject fields => assoc fields name
  | _ => JsUndefined
  end.

(** [v?.name]: short-circuits to [undefined] on [null] and [undefined]. *)
Definition optional_prop (v : JsValue) (name : string) : JsValue :=
  match v with
  | JsUndefined | JsNull => JsUndefined
  | _ => prop v name
  end.

(** [v !== false] (strict: only the boolean [false] is equal to [false]). *)
Definition strict_neq_false (v : JsValue) : bool :=
  match v with
  | JsBool false => false
  | _ => true
  end.

(** [`${n}`] for an integral number. *)
Definition Number_toString (n : Z) : string :=
  NilZero.string_of_int (Z.to_int n).

(** An element of the array [Promise.allSettled] resolves to. *)
Inductive PromiseSettledResult : Type :=
| Fulfilled (value : list JsValue)
| Rejected (reason : JsValue).

(** [r.status] *)
Definition status (r : PromiseSettledResult) : string :=
  match r with
  | Fulfilled _ => "fulfilled"
  | Rejected _ => "rejected"
  end.

(** [r.value]; a rejected entry has no such property. *)
Definition value (r : PromiseSettledResult) : JsValue :=
  match r with
  | Fulfilled v => JsArray v
  | Rejected _ => JsUndefined
  end.

(** [arr.flatMap(f)]: an array returned by [f] is spliced in (one level),
    anything else is kept as one element. *)
Definition flatMap {A : Type} (f : A -> JsValue) (arr : list A) : list JsValue :=
  flat_map (fun x => match f x with
                     | JsArray items => items
                     | v => [v]
                     end) arr.

End Js.
Export Js.

(* ================================================================= *)
(** ** Web platform objects: URLSearchParams, Headers, Response *)

Module Web.

(** The decoded query string, in the order it was written. *)
Definition URLSearchParams : Type := list (string * string).

(** [searchParams.get(name)]: the first value given for [name], or [null]. *)
Fixpoint URLSearchParams_get (p : URLSearchParams) (name : string) : option string :=
  match p with
  | [] => None
  | (k, v) :: rest => if k =? name then Some v else URLSearchParams_get rest name
  end.

(** A header list; names compare without regard to ASCII case. *)
Definition Headers : Type := list (string * string).

Definition ascii_lower (c : ascii) : ascii :=
  let n := nat_of_ascii c in
  if ((65 <=? n) && (n <=? 90))%nat then ascii_of_nat (n + 32) else c.

Fixpoint lowercase (s : string) : string :=
  match s with
  | EmptyString => EmptyString
  | String c s' => String (ascii_lower c) (lowercase s')
  end.

Definition same_header (name : string) (h : string * string) : bool :=
  lowercase (fst h) =? lowercase name.

(** [headers.get(name)]: [null] when absent, else the values for [name]
    joined with a comma and a space. *)
Definition Headers_get (hs : Headers) (name : string) : option string :=
  match filter (same_header name) hs with
  | [] => None
  | h :: rest => Some (fold_left (fun acc h' => (acc ++ ", " ++ snd h')%string) rest (snd h))
  end.

Record Request : Type := {
  searchParams : URLSearchParams;   (* of [new URL(request.url)] *)
  request_headers : Headers
}.

Record ResponseInit : Type := {
  init_status : option Z;
  init_headers : Headers
}.

Record Response : Type := {
  response_status : Z;
  response_headers : Headers;
  response_body : JsValue
}.

(** [NextResponse.json(body, init)]: status 200 unless [init] gives one,
    the headers of [init], and a JSON content type. *)
Definition NextResponse_json (body : JsValue) (init : ResponseInit) : Response :=
  {| response_status := match init_status init with Some s => s | None => 200%Z end;
     response_headers := init_headers init ++ [("content-type", "application/json")];
     response_body := body |}.

End Web.
Export Web.

(* ================================================================= *)
(** ** Collaborators, and runs that log the calls made to them *)

Section Route.

(** The provider descriptor ([ApiSite] of [@/lib/types]) is opaque to
    the handler: it is only handed from [getAvailableApiSites] to
    [searchFromApi]. *)
Context {ApiSite : Type}.

(** [getStorage()] returns an object whose only method used here is
    [getUserSettings]. *)
Record Storage : Type := {
  getUserSettings : string -> Outcome JsValue
}.

Record Collaborators : Type := {
  (** [await getCacheTime()] *)
  getCacheTime : Outcome Z;
  (** [getStorage()] *)
  getStorage : Outcome Storage;
  (** [await getAvailableApiSites(filterAdult)]; [None] is a
      [null]/[undefined] list. *)
  getAvailableApiSites : bool -> Outcome (option (list ApiSite));
  (** [searchFromApi(site, query)] is asynchronous: the call yields a
      promise, given here by the way it settles. *)
  searchFromApi : ApiSite -> string -> PromiseSettledResult;
  (** [addCorsHeaders(response)] *)
  addCorsHeaders : Response -> Response
}.

Inductive Event : Type :=
| CallGetCacheTime
| CallGetStorage
| CallGetUserSettings (userName : string)
| CallGetAvailableApiSites (filterAdult : bool)
| CallSearchFromApi (site : ApiSite) (query : string).

(** A run: the calls made so far, and how the computation ended.  The
    trace survives a throw, as the calls did happen. *)
Definition Run (A : Type) : Type := (list Event * Outcome A)%type.

Definition ret {A : Type} (a : A) : Run A := ([], Returned a).

Definition bind {A B : Type} (m : Run A) (k : A -> Run B) : Run B :=
  match m with
  | (t, Returned a) => let (t', r) := k a in (t ++ t', r)
  | (t, Thrown) => (t, Thrown)
  end.

(** A logged call to a collaborator. *)
Definition call {A : Type} (e : Event) (result : Outcome A) : Run A := ([e], result).

(** [try { body } catch { handler }] *)
Definition try_catch {A : Type} (body handler : Run A) : Run A :=
  match body with
  | (t, Returned a) => (t, Returned a)
  | (t, Thrown) => let (t', r) := handler in (t ++ t', r)
  end.

(** [arr.map(f)] for an effectful [f], left to right. *)
Fixpoint Array_map {A B : Type} (f : A -> Run B) (arr : list A) : Run (list B) :=
  match arr with
  | [] => ret []
  | x :: rest =>
      bind (f x) (fun y => bind (Array_map f rest) (fun ys => ret (y :: ys)))
  end.

Definition trace {A : Type} (m : Run A) : list Event := fst m.
Definition outcome {A : Type} (m : Run A) : Outcome A := snd m.

End Route.

Arguments Storage : clear implicits.
Arguments Collaborators : clear implicits.
Arguments Event : clear implicits.
Arguments Run : clear implicits.

Declare Scope run_scope.
Delimit Scope run_scope with run.
Notation "x <- m ;; k" := (bind m (fun x => k))
(at level 61, m at next level, right associativity) : run_scope.
Local Open Scope run_scope.

(* ================================================================= *)
(** ** The handler *)

Section Handler.

Context {ApiSite : Type}.
Variable env : Collaborators ApiSite.

(** [const query = searchParams.get('q')] *)
Definition query (request : Request) : option string :=
  URLSearchParams_get (searchParams request) "q".

(** The user name: the [user] query parameter, else the bearer token of
    the [Authorization] header.
<<
  let userName = searchParams.get('user') || undefined;
  if (!userName) {
    const authHeader = request.headers.get('Authorization');
    if (authHeader && authHeader.startsWith('Bearer ')) {
      userName = authHeader.substring(7);
    }
  }
>> *)
Definition userName (request : Request) : option string :=
  let userName := or_undefined (URLSearchParams_get (searchParams request) "user") in
  if negb (truthy userName) then
    match Headers_get (request_headers request) "Authorization" with
    | Some authHeader =>
        if truthy (Some authHeader) && startsWith authHeader "Bearer "
        then Some (substring 7 authHeader)
        else userName
    | None => userName
    end
  else userName.

(** [const includeAdult = searchParams.get('include_adult') === 'true'] *)
Definition includeAdult (request : Request) : bool :=
  match URLSearchParams_get (searchParams request) "include_adult" with
  | Some v => v =? "true"
  | None => false
  end.

(** The three cache headers, all written from the one [cacheTime]. *)
Definition cacheHeaders (cacheTime : Z) : ResponseInit :=
  {| init_status := None;
     init_headers :=
       [ ("Cache-Control",
          "public, max-age=" ++ Number_toString cacheTime
            ++ ", s-maxage=" ++ Number_toString cacheTime);
         ("CDN-Cache-Control", "public, s-maxage=" ++ Number_toString cacheTime);
         ("Vercel-CDN-Cache-Control", "public, s-maxage=" ++ Number_toString cacheTime)
       ]%string |}.

(** [{ regular_results: results, adult_results: [] }] *)
Definition resultsBody (results : list JsValue) : JsValue :=
  JsObject [ ("regular_results", JsArray results); ("adult_results", JsArray []) ].

(** The body and init of the [catch] branch. *)
Definition errorBody : JsValue :=
  JsObject [ ("regular_results", JsArray []); ("adult_results", JsArray []);
             ("error", JsString "搜索失败") ].

Definition errorInit : ResponseInit :=
  {| init_status := Some 500%Z; init_headers := [] |}.

(** The user's filter setting; filtering is the default.
<<
  let shouldFilterAdult = true;
  if (userName) {
    try {
      const storage = getStorage();
      const userSettings = await storage.getUserSettings(userName);
      shouldFilterAdult = userSettings?.filter_adult_content !== false;
    } catch {
      shouldFilterAdult = true;
    }
  }
>> *)
Definition shouldFilterAdult (userName : option string) : Run ApiSite bool :=
  match userName with
  | Some name =>
      if truthy userName then
        try_catch
          (storage <- call CallGetStorage (getStorage env) ;;
           userSettings <- call (CallGetUserSettings name) (getUserSettings storage name) ;;
           ret (strict_neq_false (optional_prop userSettings "filter_adult_content")))
          (ret true)
      else ret true
  | None => ret true
  end.

(** [const finalShouldFilter = shouldFilterAdult || !includeAdult] *)
Definition finalShouldFilter (request : Request) : Run ApiSite bool :=
  let includeAdult := includeAdult request in
  shouldFilterAdult <- shouldFilterAdult (userName request) ;;
  ret (shouldFilterAdult || negb includeAdult).

(** [!availableSites || availableSites.length === 0] *)
Definition noSites (availableSites : option (list ApiSite)) : bool :=
  match availableSites with
  | None => true
  | Some sites => (List.length sites =? 0)%nat
  end.

(** The fan-out and the merge.
<<
  const searchPromises = availableSites.map((site) => searchFromApi(site, query));
  const results = await Promise.allSettled(searchPromises);
  const searchResults = results
    .filter((r) => r.status === 'fulfilled')
    .flatMap((r) => r.value);
>> *)
Definition searchResults (availableSites : list ApiSite) (query : string)
  : Run ApiSite (list JsValue) :=
  searchPromises <-
    Array_map (fun site => call (CallSearchFromApi site query)
                                (Returned (searchFromApi env site query)))
              availableSites ;;
  let results := searchPromises in
  ret (flatMap value (filter (fun r => status r =? "fulfilled") results)).

(** The body of the handler's [try] block. *)
Definition GET_try (request : Request) (query : string) (cacheTime : Z)
  : Run ApiSite Response :=
  finalShouldFilter <- finalShouldFilter request ;;
  availableSites <- call (CallGetAvailableApiSites finalShouldFilter)
                         (getAvailableApiSites env finalShouldFilter) ;;
  match availableSites with
  | Some sites =>
      if noSites availableSites then
        ret (addCorsHeaders env (NextResponse_json (resultsBody []) (cacheHeaders cacheTime)))
      else
        searchResults <- searchResults sites query ;;
        ret (addCorsHeaders env
               (NextResponse_json (resultsBody searchResults) (cacheHeaders cacheTime)))
  | None =>
      ret (addCorsHeaders env (NextResponse_json (resultsBody []) (cacheHeaders cacheTime)))
  end.

(** [export async function GET(request: Request)] *)
Definition GET (request : Request) : Run ApiSite Response :=
  cacheTime <- call CallGetCacheTime (getCacheTime env) ;;
  match query request with
  | Some q =>
      if negb (truthy (Some q)) then
        ret (addCorsHeaders env (NextResponse_json (resultsBody []) (cacheHeaders cacheTime)))
      else
        try_catch
          (GET_try request q cacheTime)
          (ret (addCorsHeaders env (NextResponse_json errorBody errorInit)))
  | None =>
      ret (addCorsHeaders env (NextResponse_json (resultsBody []) (cacheHeaders cacheTime)))
  end.

End Handler.

(* ================================================================= *)
(** ** Reading a run *)

Section Observations.

Context {ApiSite : Type}.

(** The [filterAdult] arguments [getAvailableApiSites] was called with. *)
Fixpoint filters_passed (t : list (Event ApiSite)) : list bool :=
  match t with
  | [] => []
  | CallGetAvailableApiSites b :: rest => b :: filters_passed rest
  | _ :: rest => filters_passed rest
  end.

(** The user names [getUserSettings] was called with. *)
Fixpoint settings_lookups (t : list (Event ApiSite)) : list string :=
  match t with
  | [] => []
  | CallGetUserSettings u :: rest => u :: settings_lookups rest
  | _ :: rest => settings_lookups rest
  end.

(** The providers [searchFromApi] was called on, with the query sent. *)
Fixpoint providers_queried (t : list (Event ApiSite)) : list (ApiSite * string) :=
  match t with
  | [] => []
  | CallSearchFromApi site q :: rest => (site, q) :: providers_queried rest
  | _ :: rest => providers_queried rest
  end.

(** How many times [getCacheTime] was called. *)
Fixpoint cache_time_calls (t : list (Event ApiSite)) : nat :=
  match t with
  | [] => 0
  | CallGetCacheTime :: rest => S (cache_time_calls rest)
  | _ :: rest => cache_time_calls rest
  end.

(** Whether the logged call threw.  A provider search never does: its
    failure is a rejected promise, read by [Promise.allSettled]. *)
Definition throws (env : Collaborators ApiSite) (e : Event ApiSite) : bool :=
  match e with
  | CallGetCacheTime =>
      match getCacheTime env with Thrown => true | Returned _ => false end
  | CallGetStorage =>
      match getStorage env with Thrown => true | Returned _ => false end
  | CallGetUserSettings u =>
      match getStorage env with
      | Returned storage =>
          match getUserSettings storage u with Thrown => true | Returned _ => false end
      | Thrown => false
      end
  | CallGetAvailableApiSites b =>
      match getAvailableApiSites env b with Thrown => true | Returned _ => false end
  | CallSearchFromApi _ _ => false
  end.

(** The calls of the settings lookup, the ones the inner [try] guards. *)
Definition is_settings_lookup (e : Event ApiSite) : bool :=
  match e with
  | CallGetStorage | CallGetUserSettings _ => true
  | _ => false
  end.

(** The policy the handler settles on, as a value: the result of
    [finalShouldFilter], which never throws (see [finalShouldFilter_returns]). *)
Definition policy (env : Collaborators ApiSite) (request : Request) : bool :=
  match outcome (finalShouldFilter env request) with
  | Returned b => b
  | Thrown => true
  end.

(** The result lists of the providers whose search fulfilled, in the
    order of the provider list; a rejected provider has no entry. *)
Fixpoint fulfilled_lists (env : Collaborators ApiSite) (q : string)
  (sites : list ApiSite) : list (list JsValue) :=
  match sites with
  | [] => []
  | site :: rest =>
      match searchFromApi env site q with
      | Fulfilled v => v :: fulfilled_lists env q rest
      | Rejected _ => fulfilled_lists env q rest
      end
  end.

End Observations.

(** What is asked of [addCorsHeaders], whose code is in [@/lib/cors]: it
    decorates the response it is given, leaving its status and body alone
    (first predicate) and the cache headers readable as they were (second
    predicate). *)
Definition cacheHeaderNames : list string :=
  [ "Cache-Control"; "CDN-Cache-Control"; "Vercel-CDN-Cache-Control" ].

Definition keeps_payload (f : Response -> Response) : Prop :=
  forall r, response_status (f r) = response_status r
            /\ response_body (f r) = response_body r.

Definition keeps_cache_headers (f : Response -> Response) : Prop :=
  forall r name, In name cacheHeaderNames ->
    Headers_get (response_headers (f r)) name = Headers_get (response_headers r) name.

(** "Whenever a call made inside the [try] block throws, the response is
    a 500": too strong a reading of the handler, as the settings lookup
    sits inside the block and has a [catch] of its own. *)
Definition any_throw_gives_500 {ApiSite : Type}
  (env : Collaborators ApiSite) (request : Request)
  (q : string) (cacheTime : Z) : Prop :=
  (exists e, In e (trace (GET_try env request q cacheTime)) /\ throws env e = true) ->
  exists r, outcome (GET env request) = Returned r /\ response_status r = 500%Z.

(** The three cache headers, as a client reads them off a response. *)
Definition has_cache_headers (r : Response) (cacheTime : Z) : Prop :=
  Headers_get (response_headers r) "Cache-Control"
  = Some ("public, max-age=" ++ Number_toString cacheTime
            ++ ", s-maxage=" ++ Number_toString cacheTime)%string
  /\ Headers_get (response_headers r) "CDN-Cache-Control"
     = Some ("public, s-maxage=" ++ Number_toString cacheTime)%string
  /\ Headers_get (response_headers r) "Vercel-CDN-Cache-Control"
     = Some ("public, s-maxage=" ++ Number_toString cacheTime)%string.

(** The body [{ regular_results: [], adult_results: [] }]. *)
Definition emptyBody : JsValue :=
  JsObject [ ("regular_results", JsArray []); ("adult_results", JsArray []) ].

(** The user name as the interface description words it: the [user]
    parameter when present and non-empty, else what follows ["Bearer "] in
    the [Authorization] header. *)
Fixpoint after_prefix (p s : string) : option string :=
  match p, s with
  | EmptyString, _ => Some s
  | String a p', String b s' => if Ascii.eqb a b then after_prefix p' s' else None
  | String _ _, EmptyString => None
  end.

Definition described_userName (user authorization : option string) : option string :=
  let bearer := match authorization with
                | Some h => after_prefix "Bearer " h
                | None => None
                end in
  match user with
  | Some u => if u =? "" then bearer else Some u
  | None => bearer
  end.

(** Reading a cache header back: the value is cut at its commas, and the
    directives [max-age=N] and [s-maxage=N] give their durations ([None]
    for one that is not a number). *)
Fixpoint directives_from (cur s : string) : list string :=
  match s with
  | EmptyString => [cur]
  | String c s' =>
      if Ascii.eqb c ","
      then cur :: directives_from EmptyString s'
      else directives_from (cur ++ String c EmptyString) s'
  end.

Fixpoint trim_left (s : string) : string :=
  match s with
  | String c s' => if Ascii.eqb c " " then trim_left s' else s
  | EmptyString => s
  end.

Definition read_seconds (v : string) : option Z :=
  option_map Z.of_int (NilZero.int_of_string v).

(** The duration written in a directive, if it is [max-age] or [s-maxage]. *)
Definition duration_of (directive : string) : list string :=
  let d := trim_left directive in
  match after_prefix "max-age=" d with
  | Some v => [v]
  | None =>
      match after_prefix "s-maxage=" d with
      | Some v => [v]
      | None => []
      end
  end.

(** The durations written in a header, as text and as numbers of seconds. *)
Definition duration_texts (header : option string) : list string :=
  match header with
  | Some v => flat_map duration_of (directives_from EmptyString v)
  | None => []
  end.

Definition durations (header : option string) : list (option Z) :=
  map read_seconds (duration_texts header).

Definition no_comma (s : string) : Prop :=
  forall c, In c (list_ascii_of_string s) -> c <> ","%char.

(** The providers behind a possibly missing list. *)
Definition provider_list {ApiSite : Type} (availableSites : option (list ApiSite))
  : list ApiSite :=
  match availableSites with
  | Some sites => sites
  | None => []
  end.

(* ================================================================= *)
(** ** The handler when every call may throw *)

(** The collaborators above keep to their types: a provider search always
    yields a promise, [NextResponse.json] and [addCorsHeaders] always
    return, and the cache time is an integer.  JavaScript promises none of
    this.  The module below translates the handler again with every call
    fallible and logged, and with the cache time any number; it is the
    model for what the handler does when something throws, and for what
    it writes in the cache headers. *)

Module Fallible.

(** The characters a finite number prints with. *)
Inductive NumeralChar : Type :=
| N0 | N1 | N2 | N3 | N4 | N5 | N6 | N7 | N8 | N9
| NPoint | NMinus | NPlus | NExp.

Definition ascii_of_numeral (c : NumeralChar) : ascii :=
  match c with
  | N0 => "0" | N1 => "1" | N2 => "2" | N3 => "3" | N4 => "4"
  | N5 => "5" | N6 => "6" | N7 => "7" | N8 => "8" | N9 => "9"
  | NPoint => "." | NMinus => "-" | NPlus => "+" | NExp => "e"
  end%char.

Fixpoint string_of_numeral (text : list NumeralChar) : string :=
  match text with
  | [] => EmptyString
  | c :: rest => String (ascii_of_numeral c) (string_of_numeral rest)
  end.

(** A JavaScript number, as far as the handler goes: it is only ever
    printed.  A safe integer (below 2^53 in magnitude) prints in plain
    decimal.  Any other finite number is kept as the text it prints as (a
    fraction such as [7200.5], an exponent form such as [1e+21], the
    rounded digits of a large integer). *)
Inductive Number : Type :=
| SafeInteger (n : Z) (safe : (Z.abs n <? 2 ^ 53)%Z = true)
| Numeral (text : list NumeralChar)
| NaN
| Infinity (negative : bool).

(** [`${n}`] *)
Definition Number_toString (n : Number) : string :=
  match n with
  | SafeInteger z _ => Js.Number_toString z
  | Numeral text => string_of_numeral text
  | NaN => "NaN"
  | Infinity false => "Infinity"
  | Infinity true => "-Infinity"
  end.

Section Runs.

Context {ApiSite : Type}.

Record Collaborators : Type := {
  (** [await getCacheTime()] *)
  getCacheTime : Outcome Number;
  (** [getStorage()] *)
  getStorage : Outcome Storage;
  (** [await getAvailableApiSites(filterAdult)] *)
  getAvailableApiSites : bool -> Outcome (option (list ApiSite));
  (** [searchFromApi(site, query)]: the call may throw before it yields
      its promise; otherwise the promise is given by the way it settles. *)
  searchFromApi : ApiSite -> string -> Outcome PromiseSettledResult;
  (** Whether [JSON.stringify] accepts the value a body stands for: a
      provider result may hold a BigInt or a cycle, which a [JsValue] does
      not show, and [NextResponse.json] then throws. *)
  serializable : JsValue -> bool;
  (** [addCorsHeaders(response)] *)
  addCorsHeaders : Response -> Outcome Response
}.

Inductive Event : Type :=
| CallGetCacheTime
| CallGetStorage
| CallGetUserSettings (userName : string)
| CallGetAvailableApiSites (filterAdult : bool)
| CallSearchFromApi (site : ApiSite) (query : string)
| CallNextResponseJson (body : JsValue) (init : ResponseInit)
| CallAddCorsHeaders (response : Response).

Definition Run (A : Type) : Type := (list Event * Outcome A)%type.

Definition ret {A : Type} (a : A) : Run A := ([], Returned a).

Definition bind {A B : Type} (m : Run A) (k : A -> Run B) : Run B :=
  match m with
  | (t, Returned a) => let (t', r) := k a in (t ++ t', r)
  | (t, Thrown) => (t, Thrown)
  end.

Definition call {A : Type} (e : Event) (result : Outcome A) : Run A := ([e], result).

(** [try { body } catch { handler }] *)
Definition try_catch {A : Type} (body handler : Run A) : Run A :=
  match body with
  | (t, Returned a) => (t, Returned a)
  | (t, Thrown) => let (t', r) := handler in (t ++ t', r)
  end.

(** [arr.map(f)]: left to right, stopping at the first call that throws. *)
Fixpoint Array_map {A B : Type} (f : A -> Run B) (arr : list A) : Run (list B) :=
  match arr with
  | [] => ret []
  | x :: rest =>
      bind (f x) (fun y => bind (Array_map f rest) (fun ys => ret (y :: ys)))
  end.

Definition trace {A : Type} (m : Run A) : list Event := fst m.
Definition outcome {A : Type} (m : Run A) : Outcome A := snd m.

End Runs.

Arguments Collaborators : clear implicits.
Arguments Event : clear implicits.
Arguments Run : clear implicits.

Declare Scope fallible_scope.
Delimit Scope fallible_scope with fallible.
Notation "x <- m ;; k" := (bind m (fun x => k))
  (at level 61, m at next level, right associativity) : fallible_scope.
Local Open Scope fallible_scope.

Section Handler.

Context {ApiSite : Type}.
Variable env : Collaborators ApiSite.

(** The three cache headers, all written from the one [cacheTime]. *)
Definition cacheHeaders (cacheTime : Number) : ResponseInit :=
  {| init_status := None;
     init_headers :=
       [ ("Cache-Control",
          "public, max-age=" ++ Number_toString cacheTime
            ++ ", s-maxage=" ++ Number_toString cacheTime);
         ("CDN-Cache-Control", "public, s-maxage=" ++ Number_toString cacheTime);
         ("Vercel-CDN-Cache-Control", "public, s-maxage=" ++ Number_toString cacheTime)
       ]%string |}.

(** [NextResponse.json(body, init)], which throws on a body that cannot
    be serialized. *)
Definition NextResponse_json (body : JsValue) (init : ResponseInit)
  : Run ApiSite Response :=
  call (CallNextResponseJson body init)
       (if serializable env body
        then Returned (Web.NextResponse_json body init)
        else Thrown).

(** [const response = NextResponse.json(body, init); return addCorsHeaders(response);] *)
Definition respond (body : JsValue) (init : ResponseInit) : Run ApiSite Response :=
  response <- NextResponse_json body init ;;
  call (CallAddCorsHeaders response) (addCorsHeaders env response).

(** Lines 51-60: the user's filter setting, behind its own [try]. *)
Definition shouldFilterAdult (userName : option string) : Run ApiSite bool :=
  match userName with
  | Some name =>
      if truthy userName then
        try_catch
          (storage <- call CallGetStorage (getStorage env) ;;
           userSettings <- call (CallGetUserSettings name) (getUserSettings storage name) ;;
           ret (strict_neq_false (optional_prop userSettings "filter_adult_content")))
          (ret true)
      else ret true
  | None => ret true
  end.

(** [const finalShouldFilter = shouldFilterAdult || !includeAdult] *)
Definition finalShouldFilter (request : Request) : Run ApiSite bool :=
  let includeAdult := includeAdult request in
  shouldFilterAdult <- shouldFilterAdult (userName request) ;;
  ret (shouldFilterAdult || negb includeAdult).

(** Lines 83-87: the fan-out and the merge.  A call that throws stops
    the [map]; a promise that rejects is dropped by the [filter]. *)
Definition searchResults (availableSites : list ApiSite) (query : string)
  : Run ApiSite (list JsValue) :=
  searchPromises <-
    Array_map (fun site => call (CallSearchFromApi site query)
                                (searchFromApi env site query))
              availableSites ;;
  let results := searchPromises in
  ret (flatMap value (filter (fun r => status r =? "fulfilled") results)).

(** Lines 47-100: the body of the handler's [try] block. *)
Definition GET_try (request : Request) (query : string) (cacheTime : Number)
  : Run ApiSite Response :=
  finalShouldFilter <- finalShouldFilter request ;;
  availableSites <- call (CallGetAvailableApiSites finalShouldFilter)
                         (getAvailableApiSites env finalShouldFilter) ;;
  match availableSites with
  | Some sites =>
      if noSites availableSites then
        respond (resultsBody []) (cacheHeaders cacheTime)
      else
        searchResults <- searchResults sites query ;;
        respond (resultsBody searchResults) (cacheHeaders cacheTime)
  | None => respond (resultsBody []) (cacheHeaders cacheTime)
  end.

(** Lines 102-106: the [catch] branch. *)
Definition GET_catch : Run ApiSite Response := respond errorBody errorInit.

(** [export async function GET(request: Request)] *)
Definition GET (request : Request) : Run ApiSite Response :=
  cacheTime <- call CallGetCacheTime (getCacheTime env) ;;
  match query request with
  | Some q =>
      if negb (truthy (Some q)) then
        respond (resultsBody []) (cacheHeaders cacheTime)
      else
        try_catch (GET_try request q cacheTime) GET_catch
  | None => respond (resultsBody []) (cacheHeaders cacheTime)
  end.

(** Whether the logged call threw.  A rejected search promise is no
    throw: [Promise.allSettled] reads it. *)
Definition throws (e : Event ApiSite) : bool :=
  match e with
  | CallGetCacheTime =>
      match getCacheTime env with Thrown => true | Returned _ => false end
  | CallGetStorage =>
      match getStorage env with Thrown => true | Returned _ => false end
  | CallGetUserSettings u =>
      match getStorage env with
      | Returned storage =>
          match getUserSettings storage u with Thrown => true | Returned _ => false end
      | Thrown => false
      end
  | CallGetAvailableApiSites b =>
      match getAvailableApiSites env b with Thrown => true | Returned _ => false end
  | CallSearchFromApi site q =>
      match searchFromApi env site q with Thrown => true | Returned _ => false end
  | CallNextResponseJson body _ => negb (serializable env body)
  | CallAddCorsHeaders response =>
      match addCorsHeaders env response with Thrown => true | Returned _ => false end
  end.

(** The calls the inner [try] guards. *)
Definition is_settings_lookup (e : Event ApiSite) : bool :=
  match e with
  | CallGetStorage | CallGetUserSettings _ => true
  | _ => false
  end.

(** A call threw that no inner [try] guards. *)
Definition unguarded_throw (t : list (Event ApiSite)) : bool :=
  existsb (fun e => throws e && negb (is_settings_lookup e)) t.

Fixpoint cache_time_calls (t : list (Event ApiSite)) : nat :=
  match t with
  | [] => 0
  | CallGetCacheTime :: rest => S (cache_time_calls rest)
  | _ :: rest => cache_time_calls rest
  end.

(** What is asked of [addCorsHeaders] where it returns: the status and
    body are those it was given, and the cache headers read as before. *)
Definition keeps_payload : Prop :=
  forall r r', addCorsHeaders env r = Returned r' ->
    response_status r' = response_status r /\ response_body r' = response_body r.

Definition keeps_cache_headers : Prop :=
  forall r r' name, addCorsHeaders env r = Returned r' ->
    In name cacheHeaderNames ->
    Headers_get (response_headers r') name = Headers_get (response_headers r) name.

End Handler.

(** The three cache headers, as a client reads them off a response. *)
Definition has_cache_headers (r : Response) (cacheTime : Number) : Prop :=
  Headers_get (response_headers r) "Cache-Control"
  = Some ("public, max-age=" ++ Number_toString cacheTime
            ++ ", s-maxage=" ++ Number_toString cacheTime)%string
  /\ Headers_get (response_headers r) "CDN-Cache-Control"
     = Some ("public, s-maxage=" ++ Number_toString cacheTime)%string
  /\ Headers_get (response_headers r) "Vercel-CDN-Cache-Control"
     = Some ("public, s-maxage=" ++ Number_toString cacheTime)%string.

End Fallible.

(** The typed collaborators are fallible ones that happen never to throw
    outside the calls the types let throw.  The cache time is given
    apart, as a number that prints as the integer of the typed model
    does. *)
Definition as_fallible {ApiSite : Type} (env : Collaborators ApiSite)
  (cacheTime : Outcome Fallible.Number) : Fallible.Collaborators ApiSite :=
  {| Fallible.getCacheTime := cacheTime;
     Fallible.getStorage := getStorage env;
     Fallible.getAvailableApiSites := getAvailableApiSites env;
     Fallible.searchFromApi := fun site q => Returned (searchFromApi env site q);
     Fallible.serializable := fun _ => true;
     Fallible.addCorsHeaders := fun r => Returned (addCorsHeaders env r) |}.

Definition prints_alike (typed : Outcome Z) (number : Outcome Fallible.Number) : Prop :=
  match typed, number with
  | Returned z, Returned n => Fallible.Number_toString n = Number_toString z
  | Thrown, Thrown => True
  | _, _ => False
  end.

(** A trace of the fallible handler without the calls the typed model
    does not log. *)
Definition typed_event {ApiSite : Type} (e : Fallible.Event ApiSite)
  : list (Event ApiSite) :=
  match e with
  | Fallible.CallGetCacheTime => [CallGetCacheTime]
  | Fallible.CallGetStorage => [CallGetStorage]
  | Fallible.CallGetUserSettings u => [CallGetUserSettings u]
  | Fallible.CallGetAvailableApiSites b => [CallGetAvailableApiSites b]
  | Fallible.CallSearchFromApi site q => [CallSearchFromApi site q]
  | Fallible.CallNextResponseJson _ _ => []
  | Fallible.CallAddCorsHeaders _ => []
  end.

Definition typed_trace {ApiSite : Type} (t : list (Fallible.Event ApiSite))
  : list (Event ApiSite) :=
  flat_map typed_event t.

(* ================================================================= *)
(** ** Concrete collaborators, used to run the handler on examples *)

Module Sample.

(** An [addCorsHeaders] that appends the usual CORS headers. *)
Definition cors (r : Response) : Response :=
  {| response_status := response_status r;
     response_headers :=
       response_headers r
         ++ [ ("Access-Control-Allow-Origin", "*");
              ("Access-Control-Allow-Methods", "GET, POST, PUT, DELETE, OPTIONS");
              ("Access-Control-Allow-Headers", "Content-Type, Authorization") ];
     response_body := response_body r |}.

(** Storage knowing one user, [alice], with the given settings; a lookup
    for anyone else throws. *)
Definition storage (settings : JsValue) : Storage :=
  {| getUserSettings := fun u => if u =? "alice" then Returned settings else Thrown |}.

(** Providers are numbered; the even ones fail.  With filtering relaxed
    one more provider (number 5) is available. *)
Definition search (site : nat) (q : string) : PromiseSettledResult :=
  if Nat.even site
  then Rejected (JsString "timeout")
  else Fulfilled [ JsObject [ ("source", JsNumber (Z.of_nat site)); ("title", JsString q) ] ].

Definition env (settings : JsValue) : Collaborators nat :=
  {| getCacheTime := Returned 7200%Z;
     getStorage := Returned (storage settings);
     getAvailableApiSites :=
       fun filterAdult => Returned (Some (if filterAdult then [1; 2; 3] else [1; 2; 3; 5]));
     searchFromApi := search;
     addCorsHeaders := cors |}.

(** The same, with a configuration lookup that fails. *)
Definition env_no_config (settings : JsValue) : Collaborators nat :=
  {| getCacheTime := Returned 7200%Z;
     getStorage := Returned (storage settings);
     getAvailableApiSites := fun _ => Thrown;
     searchFromApi := search;
     addCorsHeaders := cors |}.

(** The same, with no provider configured. *)
Definition env_no_sites (settings : JsValue) : Collaborators nat :=
  {| getCacheTime := Returned 7200%Z;
     getStorage := Returned (storage settings);
     getAvailableApiSites := fun _ => Returned (Some []);
     searchFromApi := search;
     addCorsHeaders := cors |}.

(** The same, with only failing providers configured. *)
Definition env_all_down (settings : JsValue) : Collaborators nat :=
  {| getCacheTime := Returned 7200%Z;
     getStorage := Returned (storage settings);
     getAvailableApiSites := fun _ => Returned (Some [2; 4]);
     searchFromApi := search;
     addCorsHeaders := cors |}.

(** The same, with a cache-time lookup that fails. *)
Definition env_no_cache_time (settings : JsValue) : Collaborators nat :=
  {| getCacheTime := Thrown;
     getStorage := Returned (storage settings);
     getAvailableApiSites := fun _ => Returned (Some [1; 2; 3]);
     searchFromApi := search;
     addCorsHeaders := cors |}.

Definition relaxed : JsValue := JsObject [ ("filter_adult_content", JsBool false) ].
Definition strict : JsValue := JsObject [ ("filter_adult_content", JsBool true) ].

Definition request (params headers : list (string * string)) : Request :=
  {| searchParams := params; request_headers := headers |}.

(** alice asks for adult content; bob is unknown to the storage; the
    third request carries no identity, the fourth no query, the fifth a
    bearer token. *)
Definition alice_adult : Request :=
  request [ ("q", "abc"); ("user", "alice"); ("include_adult", "true") ] [].

Definition bob : Request :=
  request [ ("q", "abc"); ("user", "bob") ] [].

Definition anonymous_adult : Request :=
  request [ ("q", "abc"); ("include_adult", "true") ] [ ("Authorization", "Basic abc") ].

Definition no_query : Request :=
  request [ ("user", "alice") ] [].

Definition bearer_alice : Request :=
  request [ ("q", "abc"); ("user", "") ] [ ("authorization", "Bearer alice") ].

End Sample.

(** Collaborators for the fallible handler: those of [Sample], with the
    places where a call can be made to throw. *)
Module FallibleSample.

Definition seconds : Fallible.Number := Fallible.SafeInteger 7200 eq_refl.

(** 10^21, which prints as [1e+21]. *)
Definition sextillion : Fallible.Number :=
  Fallible.Numeral [ Fallible.N1; Fallible.NExp; Fallible.NPlus; Fallible.N2; Fallible.N1 ].

Definition make (cacheTime : Fallible.Number)
  (sites : Outcome (option (list nat)))
  (search : nat -> string -> Outcome PromiseSettledResult)
  (serial : JsValue -> bool)
  (cors : Response -> Outcome Response) : Fallible.Collaborators nat :=
  {| Fallible.getCacheTime := Returned cacheTime;
     Fallible.getStorage := Returned (Sample.storage Sample.strict);
     Fallible.getAvailableApiSites := fun _ => sites;
     Fallible.searchFromApi := search;
     Fallible.serializable := serial;
     Fallible.addCorsHeaders := cors |}.

Definition search (site : nat) (q : string) : Outcome PromiseSettledResult :=
  Returned (Sample.search site q).

(** Provider 2 throws before it yields a promise. *)
Definition search_2_throws (site : nat) (q : string) : Outcome PromiseSettledResult :=
  if (site =? 2)%nat then Thrown else Returned (Sample.search site q).

Definition cors (r : Response) : Outcome Response := Returned (Sample.cors r).

(** An [addCorsHeaders] that throws on a 200 response only. *)
Definition cors_refuses_200 (r : Response) : Outcome Response :=
  if (response_status r =? 200)%Z then Thrown else Returned (Sample.cors r).

Definition always (body : JsValue) : bool := true.

(** Results that cannot be serialized: here, any non-empty list. *)
Definition only_empty_results (body : JsValue) : bool :=
  match prop body "regular_results" with
  | JsArray (_ :: _) => false
  | _ => true
  end.

Definition env : Fallible.Collaborators nat :=
  make seconds (Returned (Some [1; 2; 3])) search always cors.

Definition env_search_throws : Fallible.Collaborators nat :=
  make seconds (Returned (Some [1; 2; 3])) search_2_throws always cors.

Definition env_cors_refuses_200 : Fallible.Collaborators nat :=
  make seconds (Returned (Some [1; 2; 3])) search always cors_refuses_200.

Definition env_unserializable : Fallible.Collaborators nat :=
  make seconds (Returned (Some [1; 2; 3])) search only_empty_results cors.

Definition env_no_config : Fallible.Collaborators nat :=
  make seconds Thrown search always cors.

(** No provider list, and an [addCorsHeaders] that always throws. *)
Definition env_cors_down : Fallible.Collaborators nat :=
  make seconds Thrown search always (fun _ => Thrown).

Definition env_sextillion : Fallible.Collaborators nat :=
  make sextillion (Returned (Some [1; 2; 3])) search always cors.

End FallibleSample.

(* ================================================================= *)
(** * Lemmas on runs *)

Section RunFacts.

Context {ApiSite : Type}.
Variable env : Collaborators ApiSite.

Lemma bind_returned {A B : Type} (t : list (Event ApiSite)) (a : A)
  (k : A -> Run ApiSite B) :
  bind (t, Returned a) k = (t ++ trace (k a), outcome (k a)).
Proof. unfold bind, trace, outcome. destruct (k a); reflexivity. Qed.

Lemma bind_thrown {A B : Type} (t : list (Event ApiSite)) (k : A -> Run ApiSite B) :
  bind (t, @Thrown A) k = (t, Thrown).
Proof. reflexivity. Qed.

Lemma Array_map_call (q : string) (sites : list ApiSite) :
  Array_map (fun site => call (CallSearchFromApi site q)
                              (Returned (searchFromApi env site q))) sites
  = (map (fun site => CallSearchFromApi site q) sites,
     Returned (map (fun site => searchFromApi env site q) sites)).
Proof.
  induction sites as [|site rest IH]; [reflexivity|].
  cbn [Array_map map]. unfold call at 1. rewrite bind_returned.
  rewrite IH, bind_returned. cbn. rewrite app_nil_r. reflexivity.
Qed.

Lemma merge_fulfilled (q : string) (sites : list ApiSite) :
  flatMap value (filter (fun r => status r =? "fulfilled")
                        (map (fun site => searchFromApi env site q) sites))
  = concat (fulfilled_lists env q sites).
Proof.
  induction sites as [|site rest IH]; [reflexivity|].
  cbn [map filter fulfilled_lists].
  destruct (searchFromApi env site q) as [v|reason]; cbn.
  - unfold flatMap in IH. rewrite IH. reflexivity.
  - exact IH.
Qed.

Lemma searchResults_run (q : string) (sites : list ApiSite) :
  searchResults env sites q
  = (map (fun site => CallSearchFromApi site q) sites,
     Returned (concat (fulfilled_lists env q sites))).
Proof.
  unfold searchResults. rewrite Array_map_call, bind_returned.
  cbn [trace outcome ret fst snd]. rewrite app_nil_r, merge_fulfilled. reflexivity.
Qed.

End RunFacts.

(* ================================================================= *)
(** * The shape of a run of the handler *)

Section HandlerFacts.

Context {ApiSite : Type}.
Variable env : Collaborators ApiSite.

Ltac run_step :=
  unfold bind, call, try_catch, ret, trace, outcome; cbn [fst snd app].

(** The settings lookup never lets an exception out. *)
Lemma shouldFilterAdult_returns (u : option string) :
  exists b, outcome (shouldFilterAdult env u) = Returned b.
Proof.
  unfold shouldFilterAdult.
  destruct u as [name|]; [|eexists; reflexivity].
  destruct (truthy (Some name)); [|eexists; reflexivity].
  run_step.
  destruct (getStorage env) as [storage|]; [|eexists; reflexivity].
  destruct (getUserSettings storage name); eexists; reflexivity.
Qed.

Lemma shouldFilterAdult_eta (u : option string) :
  exists b, shouldFilterAdult env u = (trace (shouldFilterAdult env u), Returned b).
Proof.
  destruct (shouldFilterAdult_returns u) as [b Hb]. exists b.
  destruct (shouldFilterAdult env u) as [t o]. cbn in *. now subst.
Qed.

(** Without a user name nothing is looked up and filtering stays on. *)
Lemma shouldFilterAdult_anonymous (u : option string) :
  truthy u = false -> shouldFilterAdult env u = ([], Returned true).
Proof.
  intros Hu. unfold shouldFilterAdult. destruct u as [name|]; [|reflexivity].
  now rewrite Hu.
Qed.

(** With a user name, the three ways the lookup can end. *)
Lemma shouldFilterAdult_no_storage (name : string) :
  name <> "" -> getStorage env = Thrown ->
  shouldFilterAdult env (Some name) = ([CallGetStorage], Returned true).
Proof.
  intros Hn Hs. unfold shouldFilterAdult, truthy.
  apply String.eqb_neq in Hn. rewrite Hn. cbn [negb]. run_step. now rewrite Hs.
Qed.

Lemma shouldFilterAdult_lookup_thrown (name : string) (storage : Storage) :
  name <> "" -> getStorage env = Returned storage ->
  getUserSettings storage name = Thrown ->
  shouldFilterAdult env (Some name)
  = ([CallGetStorage; CallGetUserSettings name], Returned true).
Proof.
  intros Hn Hs Hu. unfold shouldFilterAdult, truthy.
  apply String.eqb_neq in Hn. rewrite Hn. cbn [negb]. run_step.
  now rewrite Hs, Hu.
Qed.

Lemma shouldFilterAdult_lookup_returned (name : string) (storage : Storage)
  (userSettings : JsValue) :
  name <> "" -> getStorage env = Returned storage ->
  getUserSettings storage name = Returned userSettings ->
  shouldFilterAdult env (Some name)
  = ([CallGetStorage; CallGetUserSettings name],
     Returned (strict_neq_false (optional_prop userSettings "filter_adult_content"))).
Proof.
  intros Hn Hs Hu. unfold shouldFilterAdult, truthy.
  apply String.eqb_neq in Hn. rewrite Hn. cbn [negb]. run_step.
  now rewrite Hs, Hu.
Qed.

(** The only provider-list call a settings lookup can log is none. *)
Lemma shouldFilterAdult_trace (u : option string) :
  filters_passed (trace (shouldFilterAdult env u)) = []
  /\ providers_queried (trace (shouldFilterAdult env u)) = []
  /\ cache_time_calls (trace (shouldFilterAdult env u)) = 0
  /\ (forall n, In n (settings_lookups (trace (shouldFilterAdult env u))) -> u = Some n)
  /\ (forall e, In e (trace (shouldFilterAdult env u)) -> is_settings_lookup e = true).
Proof.
  unfold shouldFilterAdult.
  destruct u as [name|]; [|cbn; intuition].
  destruct (truthy (Some name)); [|cbn; intuition].
  run_step.
  destruct (getStorage env) as [storage|]; cbn.
  - destruct (getUserSettings storage name); cbn; intuition; subst; auto.
  - intuition; subst; auto.
Qed.

Lemma finalShouldFilter_run (request : Request) :
  finalShouldFilter env request
  = (trace (shouldFilterAdult env (userName request)), Returned (policy env request)).
Proof.
  unfold policy, finalShouldFilter.
  destruct (shouldFilterAdult_eta (userName request)) as [b Hb].
  rewrite Hb. cbn. now rewrite app_nil_r.
Qed.

Lemma finalShouldFilter_returns (request : Request) :
  outcome (finalShouldFilter env request) = Returned (policy env request).
Proof. now rewrite finalShouldFilter_run. Qed.

Lemma policy_eq (request : Request) (b : bool) :
  outcome (shouldFilterAdult env (userName request)) = Returned b ->
  policy env request = b || negb (includeAdult request).
Proof.
  intros Hb. unfold policy, finalShouldFilter.
  destruct (shouldFilterAdult env (userName request)) as [t o]. cbn in Hb. subst o.
  reflexivity.
Qed.

(** The [try] block: the settings lookup, the provider-list call, then
    one search per provider. *)
Lemma GET_try_run (request : Request) (q : string) (cacheTime : Z) :
  GET_try env request q cacheTime
  = let lookup := trace (shouldFilterAdult env (userName request)) in
    let filterAdult := policy env request in
    match getAvailableApiSites env filterAdult with
    | Thrown => (lookup ++ [CallGetAvailableApiSites filterAdult], Thrown)
    | Returned availableSites =>
        let sites := provider_list availableSites in
        (lookup ++ [CallGetAvailableApiSites filterAdult]
           ++ map (fun site => CallSearchFromApi site q) sites,
         Returned (addCorsHeaders env
                     (NextResponse_json
                        (resultsBody (concat (fulfilled_lists env q sites)))
                        (cacheHeaders cacheTime))))
    end.
Proof.
  unfold GET_try. rewrite finalShouldFilter_run, bind_returned.
  cbv zeta. unfold call.
  destruct (getAvailableApiSites env (policy env request)) as [[sites|]|].
  - rewrite bind_returned. cbn [provider_list].
    destruct sites as [|site rest]; cbn [noSites List.length Nat.eqb].
    + cbn. reflexivity.
    + rewrite searchResults_run, bind_returned. cbn [trace outcome fst snd ret].
      rewrite app_nil_r. reflexivity.
  - rewrite bind_returned. cbn. reflexivity.
  - rewrite bind_thrown. reflexivity.
Qed.

Lemma GET_no_query (request : Request) (cacheTime : Z) :
  truthy (query request) = false ->
  getCacheTime env = Returned cacheTime ->
  GET env request
  = ([CallGetCacheTime],
     Returned (addCorsHeaders env
                 (NextResponse_json (resultsBody []) (cacheHeaders cacheTime)))).
Proof.
  intros Hq Ht. unfold GET. rewrite Ht. unfold call. rewrite bind_returned.
  destruct (query request) as [q|]; [rewrite Hq|]; reflexivity.
Qed.

Lemma GET_cache_thrown (request : Request) :
  getCacheTime env = Thrown -> GET env request = ([CallGetCacheTime], Thrown).
Proof. intros Ht. unfold GET. now rewrite Ht. Qed.

Lemma GET_run (request : Request) (q : string) (cacheTime : Z) :
  query request = Some q -> q <> "" ->
  getCacheTime env = Returned cacheTime ->
  GET env request
  = let lookup := trace (shouldFilterAdult env (userName request)) in
    let filterAdult := policy env request in
    match getAvailableApiSites env filterAdult with
    | Thrown =>
        (CallGetCacheTime :: lookup ++ [CallGetAvailableApiSites filterAdult],
         Returned (addCorsHeaders env (NextResponse_json errorBody errorInit)))
    | Returned availableSites =>
        let sites := provider_list availableSites in
        (CallGetCacheTime :: lookup ++ [CallGetAvailableApiSites filterAdult]
           ++ map (fun site => CallSearchFromApi site q) sites,
         Returned (addCorsHeaders env
                     (NextResponse_json
                        (resultsBody (concat (fulfilled_lists env q sites)))
                        (cacheHeaders cacheTime))))
    end.
Proof.
  intros Hq Hne Ht. unfold GET. rewrite Ht, Hq. unfold call. rewrite bind_returned.
  unfold truthy. apply String.eqb_neq in Hne. rewrite Hne. cbn [negb].
  rewrite GET_try_run. cbv zeta.
  destruct (getAvailableApiSites env (policy env request)); cbn.
  - reflexivity.
  - rewrite app_nil_r. reflexivity.
Qed.

(** The calls of a run: [getCacheTime] alone, or followed by the settings
    lookup, the provider-list call and the searches. *)
Lemma GET_trace_shape (request : Request) :
  trace (GET env request) = [CallGetCacheTime]
  \/ exists q sites,
       query request = Some q
       /\ trace (GET env request)
          = CallGetCacheTime
              :: trace (shouldFilterAdult env (userName request))
              ++ [CallGetAvailableApiSites (policy env request)]
              ++ map (fun site => CallSearchFromApi site q) sites.
Proof.
  destruct (getCacheTime env) as [cacheTime|] eqn:Ht.
  - destruct (truthy (query request)) eqn:Hq.
    + destruct (query request) as [q|] eqn:Hq'; [|discriminate].
      assert (q <> "") as Hne.
      { cbn in Hq. apply negb_true_iff in Hq. now apply String.eqb_neq. }
      right. exists q.
      rewrite (GET_run request q cacheTime Hq' Hne Ht). cbv zeta.
      destruct (getAvailableApiSites env (policy env request)) as [sites|].
      * exists (provider_list sites). split; reflexivity.
      * exists []. split; reflexivity.
    + left. now rewrite (GET_no_query request cacheTime Hq Ht).
  - left. now rewrite (GET_cache_thrown request Ht).
Qed.

End HandlerFacts.

(* ================================================================= *)
(** * Reading traces *)

Section TraceFacts.

Context {ApiSite : Type}.
Implicit Types t u : list (Event ApiSite).

Lemma filters_passed_app t u :
  filters_passed (t ++ u) = filters_passed t ++ filters_passed u.
Proof.
  induction t as [|e t IH]; [reflexivity|].
  destruct e; cbn; now rewrite ?IH.
Qed.

Lemma settings_lookups_app t u :
  settings_lookups (t ++ u) = settings_lookups t ++ settings_lookups u.
Proof.
  induction t as [|e t IH]; [reflexivity|].
  destruct e; cbn; now rewrite ?IH.
Qed.

Lemma providers_queried_app t u :
  providers_queried (t ++ u) = providers_queried t ++ providers_queried u.
Proof.
  induction t as [|e t IH]; [reflexivity|].
  destruct e; cbn; now rewrite ?IH.
Qed.

Lemma cache_time_calls_app t u :
  cache_time_calls (t ++ u) = cache_time_calls t + cache_time_calls u.
Proof.
  induction t as [|e t IH]; [reflexivity|].
  destruct e; cbn; now rewrite ?IH.
Qed.

(** The fan-out logs one search per provider and nothing else. *)
Lemma fan_out_trace (q : string) (sites : list ApiSite) :
  let t := map (fun site => CallSearchFromApi site q) sites in
  filters_passed t = []
  /\ settings_lookups t = []
  /\ cache_time_calls t = 0
  /\ providers_queried t = map (fun site => (site, q)) sites.
Proof.
  induction sites as [|site rest IH]; cbn; [intuition|].
  cbn in IH. destruct IH as (? & ? & ? & ->). intuition.
Qed.

End TraceFacts.

(* ================================================================= *)
(** * The collaborators of the examples *)

Lemma sample_cors_keeps_payload : keeps_payload Sample.cors.
Proof. intros r. split; reflexivity. Qed.

Lemma Headers_get_app_other (hs extra : Headers) (name : string) :
  filter (same_header name) extra = [] ->
  Headers_get (hs ++ extra) name = Headers_get hs name.
Proof.
  intros Hx. unfold Headers_get. now rewrite filter_app, Hx, app_nil_r.
Qed.

Lemma sample_cors_keeps_cache_headers : keeps_cache_headers Sample.cors.
Proof.
  intros r name Hin. unfold Sample.cors. cbn [response_headers].
  apply Headers_get_app_other.
  cbn in Hin. destruct Hin as [<-|[<-|[<-|[]]]]; reflexivity.
Qed.

(* ================================================================= *)
(** * The filter policy *)

Section Policy.

Context {ApiSite : Type}.
Variable env : Collaborators ApiSite.

Lemma optional_prop_prop (v : JsValue) (name : string) :
  optional_prop v name = prop v name.
Proof. destruct v; reflexivity. Qed.

Lemma strict_neq_false_iff (v : JsValue) :
  strict_neq_false v = false <-> v = JsBool false.
Proof.
  split; [|intros ->; reflexivity].
  destruct v as [| |[|]| | | |]; cbn; congruence.
Qed.

Lemma includeAdult_iff (request : Request) :
  includeAdult request = true
  <-> URLSearchParams_get (searchParams request) "include_adult" = Some "true".
Proof.
  unfold includeAdult.
  destruct (URLSearchParams_get (searchParams request) "include_adult") as [v|].
  - rewrite String.eqb_eq. split; congruence.
  - split; discriminate.
Qed.

(** Once the cache time is known and the query is not empty, the provider
    list is asked for exactly once, with the policy. *)
Lemma GET_filters_passed (request : Request) (q : string) (cacheTime : Z) :
  query request = Some q -> q <> "" ->
  getCacheTime env = Returned cacheTime ->
  filters_passed (trace (GET env request)) = [policy env request].
Proof.
  intros Hq Hne Ht. rewrite (GET_run env request q cacheTime Hq Hne Ht). cbv zeta.
  destruct (shouldFilterAdult_trace env (userName request)) as (Hf & _).
  destruct (getAvailableApiSites env (policy env request)) as [sites|];
    cbn [trace fst filters_passed];
    rewrite !filters_passed_app, Hf; cbn [filters_passed app];
    [|reflexivity].
  now destruct (fan_out_trace q (provider_list sites)) as (-> & _).
Qed.

(** In every run, whatever is passed to [getAvailableApiSites] is the policy. *)
Lemma GET_filters_passed_any (request : Request) (b : bool) :
  In b (filters_passed (trace (GET env request))) -> b = policy env request.
Proof.
  destruct (shouldFilterAdult_trace env (userName request)) as (Hf & _).
  destruct (GET_trace_shape env request) as [->|(q & sites & _ & ->)].
  - intros [].
  - cbn [filters_passed]. rewrite !filters_passed_app, Hf.
    destruct (fan_out_trace q sites) as (-> & _). cbn. intuition.
Qed.

Lemma GET_settings_lookups_eq (request : Request) :
  settings_lookups (trace (GET env request)) = []
  \/ settings_lookups (trace (GET env request))
     = settings_lookups (trace (shouldFilterAdult env (userName request))).
Proof.
  destruct (GET_trace_shape env request) as [->|(q & sites & _ & ->)].
  - now left.
  - right. cbn [settings_lookups]. rewrite !settings_lookups_app.
    destruct (fan_out_trace q sites) as (_ & -> & _). cbn. now rewrite !app_nil_r.
Qed.

Lemma GET_settings_lookups (request : Request) (n : string) :
  In n (settings_lookups (trace (GET env request))) -> userName request = Some n.
Proof.
  destruct (shouldFilterAdult_trace env (userName request)) as (_ & _ & _ & Hl & _).
  destruct (GET_settings_lookups_eq request) as [->| ->]; [intros []|apply Hl].
Qed.

(** C1. For a request with a non-empty query and a user name whose
    settings lookup succeeds, the filter handed to [getAvailableApiSites]
    is [false] exactly when the stored settings have
    [filter_adult_content] equal to [false] and the [include_adult]
    parameter is ["true"]; in every other case it is [true]. *)
Theorem C1_filter_relaxed_iff
  (request : Request) (q name : string) (cacheTime : Z)
  (storage : Storage) (userSettings : JsValue) :
  query request = Some q -> q <> "" ->
  userName request = Some name -> name <> "" ->
  getCacheTime env = Returned cacheTime ->
  getStorage env = Returned storage ->
  getUserSettings storage name = Returned userSettings ->
  exists filterAdult : bool,
    filters_passed (trace (GET env request)) = [filterAdult]
    /\ (filterAdult = false
        <-> prop userSettings "filter_adult_content" = JsBool false
            /\ URLSearchParams_get (searchParams request) "include_adult" = Some "true")
    /\ (filterAdult = true
        <-> ~ (prop userSettings "filter_adult_content" = JsBool false
               /\ URLSearchParams_get (searchParams request) "include_adult"
                  = Some "true")).
Proof.
  intros Hq Hne Hu Hn Ht Hs Hl.
  exists (policy env request). split.
  { exact (GET_filters_passed request q cacheTime Hq Hne Ht). }
  assert (policy env request
          = strict_neq_false (prop userSettings "filter_adult_content")
            || negb (includeAdult request)) as Hp.
  { rewrite <- optional_prop_prop. apply policy_eq.
    rewrite Hu, (shouldFilterAdult_lookup_returned env name storage userSettings Hn Hs Hl).
    reflexivity. }
  rewrite Hp, <- includeAdult_iff, <- strict_neq_false_iff.
  destruct (strict_neq_false (prop userSettings "filter_adult_content")),
    (includeAdult request); cbn; intuition congruence.
Qed.

(** C3. For a request with a user name, if the settings lookup throws
    ([getStorage] or [getUserSettings]), or returns [null] or [undefined],
    or returns settings whose [filter_adult_content] is missing or is
    anything but [false], then [shouldFilterAdult] is [true]; and so is
    then every filter handed to [getAvailableApiSites]. *)
Theorem C3_lookup_failure_filters (name : string) :
  name <> "" ->
  (getStorage env = Thrown
   \/ exists storage, getStorage env = Returned storage
        /\ (getUserSettings storage name = Thrown
            \/ exists userSettings,
                 getUserSettings storage name = Returned userSettings
                 /\ (userSettings = JsNull
                     \/ userSettings = JsUndefined
                     \/ prop userSettings "filter_adult_content" = JsUndefined
                     \/ prop userSettings "filter_adult_content" <> JsBool false))) ->
  outcome (shouldFilterAdult env (Some name)) = Returned true
  /\ forall request b,
       userName request = Some name ->
       In b (filters_passed (trace (GET env request))) -> b = true.
Proof.
  intros Hn Hcase.
  assert (outcome (shouldFilterAdult env (Some name)) = Returned true) as Hout.
  { destruct Hcase as [Hs|(storage & Hs & [Hl|(us & Hl & Hus)])].
    - now rewrite (shouldFilterAdult_no_storage env name Hn Hs).
    - now rewrite (shouldFilterAdult_lookup_thrown env name storage Hn Hs Hl).
    - rewrite (shouldFilterAdult_lookup_returned env name storage us Hn Hs Hl).
      cbn [outcome snd]. f_equal. rewrite optional_prop_prop.
      destruct (strict_neq_false (prop us "filter_adult_content")) eqn:E;
        [reflexivity|].
      apply strict_neq_false_iff in E.
      destruct Hus as [->|[->|[Hm|Hv]]]; cbn in E; congruence. }
  split; [exact Hout|].
  intros request b Hu Hb. apply GET_filters_passed_any in Hb. subst b.
  rewrite (policy_eq env request true); [reflexivity|now rewrite Hu].
Qed.

End Policy.

(* ================================================================= *)
(** * The user name *)

Section Identity.

Context {ApiSite : Type}.
Variable env : Collaborators ApiSite.

Lemma after_prefix_prefix (p s : string) :
  after_prefix p s
  = if String.prefix p s then Some (substring (String.length p) s) else None.
Proof.
  revert s. induction p as [|a p IH]; intros s; [now destruct s|].
  destruct s as [|b s]; [reflexivity|].
  cbn [after_prefix String.prefix String.length substring].
  destruct (ascii_dec a b) as [->|Hab].
  - rewrite Ascii.eqb_refl. apply IH.
  - apply Ascii.eqb_neq in Hab. now rewrite Hab.
Qed.

Lemma after_prefix_iff (p s rest : string) :
  after_prefix p s = Some rest <-> s = (p ++ rest)%string.
Proof.
  revert s. induction p as [|a p IH]; intros s; cbn.
  - split; congruence.
  - destruct s as [|b s]; [split; discriminate|].
    destruct (Ascii.eqb a b) eqn:E.
    + apply Ascii.eqb_eq in E. subst b. rewrite IH. split; congruence.
    + apply Ascii.eqb_neq in E. split; [discriminate|congruence].
Qed.

Lemma userName_described (request : Request) :
  userName request
  = described_userName (URLSearchParams_get (searchParams request) "user")
                       (Headers_get (request_headers request) "Authorization").
Proof.
  unfold userName, described_userName, or_undefined, startsWith.
  destruct (URLSearchParams_get (searchParams request) "user") as [u|].
  - cbn [truthy]. destruct (u =? "") eqn:E; cbn [negb truthy].
    + destruct (Headers_get (request_headers request) "Authorization") as [h|];
        [|reflexivity].
      rewrite after_prefix_prefix.
      destruct h as [|c h]; [reflexivity|]. cbn [String.eqb negb andb].
      now destruct (String.prefix "Bearer " (String c h)).
    + now rewrite E.
  - cbn [truthy negb].
    destruct (Headers_get (request_headers request) "Authorization") as [h|];
      [|reflexivity].
    rewrite after_prefix_prefix.
    destruct h as [|c h]; [reflexivity|]. cbn [truthy String.eqb negb andb].
    now destruct (String.prefix "Bearer " (String c h)).
Qed.

Lemma lookup_for_user (name : string) (storage : Storage) :
  name <> "" -> getStorage env = Returned storage ->
  settings_lookups (trace (shouldFilterAdult env (Some name))) = [name].
Proof.
  intros Hn Hs.
  destruct (getUserSettings storage name) as [us|] eqn:Hl.
  - now rewrite (shouldFilterAdult_lookup_returned env name storage us Hn Hs Hl).
  - now rewrite (shouldFilterAdult_lookup_thrown env name storage Hn Hs Hl).
Qed.

(** C6. The user name of a request is the [user] parameter when it is
    present and non-empty (whatever the headers are); otherwise it is what
    follows ["Bearer "] in the [Authorization] header, when the header
    starts so.  Every settings lookup of a run is made for that name, and
    a lookup is made for it whenever the name is non-empty and the handler
    reaches the lookup. *)
Theorem C6_userName_source (request : Request) :
  userName request
  = described_userName (URLSearchParams_get (searchParams request) "user")
                       (Headers_get (request_headers request) "Authorization")
  /\ (forall user headers,
        URLSearchParams_get (searchParams request) "user" = Some user ->
        user <> "" ->
        userName {| searchParams := searchParams request; request_headers := headers |}
        = Some user)
  /\ (forall header rest,
        truthy (URLSearchParams_get (searchParams request) "user") = false ->
        Headers_get (request_headers request) "Authorization" = Some header ->
        (header = ("Bearer " ++ rest)%string <-> userName request = Some rest))
  /\ (forall name,
        In name (settings_lookups (trace (GET env request))) ->
        userName request = Some name)
  /\ (forall q cacheTime storage name,
        query request = Some q -> q <> "" ->
        getCacheTime env = Returned cacheTime ->
        getStorage env = Returned storage ->
        userName request = Some name -> name <> "" ->
        settings_lookups (trace (GET env request)) = [name]).
Proof.
  split; [apply userName_described|].
  split.
  { intros user headers Hu Hne. rewrite userName_described. cbn [searchParams].
    rewrite Hu. unfold described_userName.
    apply String.eqb_neq in Hne. now rewrite Hne. }
  split.
  { intros header rest Hu Hh. rewrite userName_described, Hh.
    unfold described_userName.
    destruct (URLSearchParams_get (searchParams request) "user") as [u|].
    - cbn in Hu. apply negb_false_iff in Hu. rewrite Hu.
      symmetry. apply after_prefix_iff.
    - symmetry. apply after_prefix_iff. }
  split; [apply GET_settings_lookups|].
  intros q cacheTime storage name Hq Hne Ht Hs Hu Hn.
  rewrite (GET_run env request q cacheTime Hq Hne Ht). cbv zeta. rewrite Hu.
  destruct (getAvailableApiSites env (policy env request)) as [sites|];
    cbn [trace fst settings_lookups];
    rewrite !settings_lookups_app, (lookup_for_user name storage Hn Hs);
    cbn [settings_lookups app]; [|reflexivity].
  now destruct (fan_out_trace q (provider_list sites)) as (_ & -> & _).
Qed.

Lemma anonymous_userName (request : Request) :
  truthy (URLSearchParams_get (searchParams request) "user") = false ->
  (forall header,
     Headers_get (request_headers request) "Authorization" = Some header ->
     startsWith header "Bearer " = true -> substring 7 header = "") ->
  truthy (userName request) = false.
Proof.
  intros Hu Hh. unfold userName, or_undefined. rewrite Hu. cbn [truthy negb].
  destruct (Headers_get (request_headers request) "Authorization") as [h|];
    [|reflexivity].
  destruct (startsWith h "Bearer ") eqn:E.
  - rewrite andb_true_r, (Hh h eq_refl E).
    now destruct (negb (h =? "")).
  - now rewrite andb_false_r.
Qed.

(** C10. A request with no user name (no non-empty [user] parameter, and
    no [Authorization] header starting with ["Bearer "] followed by a
    non-empty token) never has its filter relaxed: no settings are looked
    up, every filter handed to [getAvailableApiSites] is [true], and when
    the handler gets that far it is handed exactly [true], whatever
    [include_adult] says. *)
Theorem C10_anonymous_never_relaxed (request : Request) :
  truthy (URLSearchParams_get (searchParams request) "user") = false ->
  (forall header,
     Headers_get (request_headers request) "Authorization" = Some header ->
     startsWith header "Bearer " = true -> substring 7 header = "") ->
  settings_lookups (trace (GET env request)) = []
  /\ (forall b, In b (filters_passed (trace (GET env request))) -> b = true)
  /\ (forall q cacheTime,
        query request = Some q -> q <> "" ->
        getCacheTime env = Returned cacheTime ->
        filters_passed (trace (GET env request)) = [true]).
Proof.
  intros Hu Hh.
  pose proof (anonymous_userName request Hu Hh) as Hanon.
  pose proof (shouldFilterAdult_anonymous env (userName request) Hanon) as Hrun.
  assert (policy env request = true) as Hp.
  { rewrite (policy_eq env request true); [reflexivity|now rewrite Hrun]. }
  split.
  { destruct (GET_settings_lookups_eq env request) as [->| ->]; [reflexivity|].
    now rewrite Hrun. }
  split.
  { intros b Hb. apply GET_filters_passed_any in Hb. congruence. }
  intros q cacheTime Hq Hne Ht.
  rewrite (GET_filters_passed env request q cacheTime Hq Hne Ht). now rewrite Hp.
Qed.

End Identity.

(* ================================================================= *)
(** * Cache headers *)

Section CacheHeaders.

Lemma digits_no_comma (u : Decimal.uint) : no_comma (NilEmpty.string_of_uint u).
Proof.
  induction u as [|u IH|u IH|u IH|u IH|u IH|u IH|u IH|u IH|u IH|u IH];
    intros c; cbn; [intros []| |  | | | | | | | | ];
    (intros [<-|Hin]; [discriminate|now apply IH]).
Qed.

Lemma Number_toString_no_comma (n : Z) : no_comma (Number_toString n).
Proof.
  assert (forall u, no_comma (NilZero.string_of_uint u)) as Hu.
  { intros [|u|u|u|u|u|u|u|u|u|u]; try apply digits_no_comma.
    intros c [<-|[]]. discriminate. }
  unfold Number_toString.
  destruct (Z.to_int n) as [u|u]; cbn [NilZero.string_of_int]; [apply Hu|].
  intros c [<-|Hin]; [discriminate|exact (Hu u c Hin)].
Qed.

Lemma read_seconds_Number_toString (n : Z) : read_seconds (Number_toString n) = Some n.
Proof.
  unfold read_seconds, Number_toString.
  rewrite NilZero.isi.
  - cbn [option_map]. now rewrite DecimalZ.of_to.
  - destruct n as [|p|p]; cbn; try discriminate.
    intros [= H]. now apply Unsigned.to_uint_nonnil in H.
  - destruct n as [|p|p]; cbn; try discriminate.
    intros [= H]. now apply Unsigned.to_uint_nonnil in H.
Qed.

Lemma append_assoc (a b c : string) : ((a ++ b) ++ c = a ++ (b ++ c))%string.
Proof. induction a as [|x a IH]; cbn; [reflexivity|now rewrite IH]. Qed.

Lemma append_empty (a : string) : (a ++ "" = a)%string.
Proof. induction a as [|x a IH]; cbn; [reflexivity|now rewrite IH]. Qed.

(** A stretch without commas stays within the current directive. *)
Lemma directives_from_plain (a cur rest : string) :
  no_comma a ->
  directives_from cur (a ++ rest) = directives_from (cur ++ a) rest.
Proof.
  revert cur. induction a as [|x a IH]; intros cur Ha; cbn [append directives_from].
  - now rewrite append_empty.
  - destruct (Ascii.eqb x ",") eqn:E.
    + apply Ascii.eqb_eq in E. exfalso. apply (Ha x); [now left|exact E].
    + rewrite IH.
      * now rewrite append_assoc.
      * intros c Hc. apply Ha. now right.
Qed.

Lemma directives_from_last (a cur : string) :
  no_comma a -> directives_from cur a = [(cur ++ a)%string].
Proof.
  intros Ha. rewrite <- (append_empty a) at 1.
  now rewrite directives_from_plain.
Qed.

(** The durations read back from the two header templates are the text
    that was spliced in, as long as it has no comma. *)
Lemma duration_texts_of_templates (N : string) :
  no_comma N ->
  duration_texts (Some ("public, max-age=" ++ N ++ ", s-maxage=" ++ N)%string) = [N; N]
  /\ duration_texts (Some ("public, s-maxage=" ++ N)%string) = [N].
Proof.
  intros Hn. unfold duration_texts. split.
  - cbn [append directives_from Ascii.eqb Bool.eqb].
    rewrite (directives_from_plain N _ _ Hn).
    cbn [append directives_from Ascii.eqb Bool.eqb].
    rewrite (directives_from_last N _ Hn).
    reflexivity.
  - cbn [append directives_from Ascii.eqb Bool.eqb].
    rewrite (directives_from_last N _ Hn).
    reflexivity.
Qed.

Lemma cacheHeaders_readable (body : JsValue) (cacheTime : Z) :
  has_cache_headers (NextResponse_json body (cacheHeaders cacheTime)) cacheTime.
Proof. repeat split. Qed.

Lemma has_cache_headers_cors (f : Response -> Response) (r : Response) (cacheTime : Z) :
  keeps_cache_headers f -> has_cache_headers r cacheTime ->
  has_cache_headers (f r) cacheTime.
Proof.
  intros Hf (H1 & H2 & H3). unfold has_cache_headers.
  rewrite !Hf; [now repeat split| | |]; cbn; tauto.
Qed.

End CacheHeaders.

(* ================================================================= *)
(** * Responses *)

Section Responses.

Context {ApiSite : Type}.
Variable env : Collaborators ApiSite.

(** The four ways a request ends. *)
Lemma GET_cases (request : Request) :
  (getCacheTime env = Thrown /\ outcome (GET env request) = Thrown)
  \/ (exists cacheTime,
        getCacheTime env = Returned cacheTime
        /\ truthy (query request) = false
        /\ outcome (GET env request)
           = Returned (addCorsHeaders env
                         (NextResponse_json (resultsBody []) (cacheHeaders cacheTime))))
  \/ (exists cacheTime q,
        getCacheTime env = Returned cacheTime
        /\ query request = Some q /\ q <> ""
        /\ getAvailableApiSites env (policy env request) = Thrown
        /\ outcome (GET env request)
           = Returned (addCorsHeaders env (NextResponse_json errorBody errorInit)))
  \/ (exists cacheTime q availableSites,
        getCacheTime env = Returned cacheTime
        /\ query request = Some q /\ q <> ""
        /\ getAvailableApiSites env (policy env request) = Returned availableSites
        /\ outcome (GET env request)
           = Returned (addCorsHeaders env
                         (NextResponse_json
                            (resultsBody (concat (fulfilled_lists env q
                                                    (provider_list availableSites))))
                            (cacheHeaders cacheTime)))).
Proof.
  destruct (getCacheTime env) as [cacheTime|] eqn:Ht.
  - destruct (truthy (query request)) eqn:Hq.
    + destruct (query request) as [q|] eqn:Hq'; [|discriminate].
      assert (q <> "") as Hne.
      { cbn in Hq. apply negb_true_iff in Hq. now apply String.eqb_neq. }
      pose proof (GET_run env request q cacheTime Hq' Hne Ht) as Hrun.
      cbv zeta in Hrun.
      destruct (getAvailableApiSites env (policy env request)) as [sites|] eqn:Hs;
        rewrite Hrun; cbn [outcome snd].
      * right. right. right. exists cacheTime, q, sites. intuition.
      * right. right. left. exists cacheTime, q. intuition.
    + right. left. exists cacheTime.
      rewrite (GET_no_query env request cacheTime Hq Ht). intuition.
  - left. rewrite (GET_cache_thrown env request Ht). intuition.
Qed.

(** [getCacheTime] is called once in every run. *)
Lemma GET_cache_time_calls (request : Request) :
  cache_time_calls (trace (GET env request)) = 1.
Proof.
  destruct (shouldFilterAdult_trace env (userName request)) as (_ & _ & Hc & _).
  destruct (GET_trace_shape env request) as [->|(q & sites & _ & ->)];
    [reflexivity|].
  cbn [cache_time_calls]. rewrite !cache_time_calls_app, Hc.
  now destruct (fan_out_trace q sites) as (_ & _ & -> & _).
Qed.

(** A provider whose search fulfilled has its results, as one stretch, in
    the merged list. *)
Lemma fulfilled_lists_segment (q : string) (sites : list ApiSite)
  (site : ApiSite) (v : list JsValue) :
  In site sites -> searchFromApi env site q = Fulfilled v ->
  exists before after,
    concat (fulfilled_lists env q sites) = before ++ v ++ after.
Proof.
  intros Hin Hv. induction sites as [|s rest IH]; [destruct Hin|].
  cbn [fulfilled_lists]. destruct Hin as [->|Hin].
  - rewrite Hv. exists [], (concat (fulfilled_lists env q rest)). reflexivity.
  - destruct (IH Hin) as (before & after & E).
    destruct (searchFromApi env s q) as [w|reason].
    + exists (w ++ before), after. cbn [concat]. now rewrite E, <- app_assoc.
    + exists before, after. exact E.
Qed.

(** Whatever is in the merged list came from a provider whose search
    fulfilled. *)
Lemma fulfilled_lists_origin (q : string) (sites : list ApiSite) (x : JsValue) :
  In x (concat (fulfilled_lists env q sites)) ->
  exists site v,
    In site sites /\ searchFromApi env site q = Fulfilled v /\ In x v.
Proof.
  induction sites as [|s rest IH]; [intros []|].
  cbn [fulfilled_lists].
  destruct (searchFromApi env s q) as [w|reason] eqn:E.
  - cbn [concat]. rewrite in_app_iff. intros [Hx|Hx].
    + exists s, w. cbn. auto.
    + destruct (IH Hx) as (site & v & ? & ? & ?). exists site, v. cbn. auto.
  - intros Hx. destruct (IH Hx) as (site & v & ? & ? & ?). exists site, v. cbn. auto.
Qed.

Lemma GET_providers_queried (request : Request) (q : string) (cacheTime : Z)
  (availableSites : option (list ApiSite)) :
  query request = Some q -> q <> "" ->
  getCacheTime env = Returned cacheTime ->
  getAvailableApiSites env (policy env request) = Returned availableSites ->
  providers_queried (trace (GET env request))
  = map (fun site => (site, q)) (provider_list availableSites).
Proof.
  intros Hq Hne Ht Hs.
  destruct (shouldFilterAdult_trace env (userName request)) as (_ & Hp & _).
  rewrite (GET_run env request q cacheTime Hq Hne Ht). cbv zeta. rewrite Hs.
  cbn [trace fst providers_queried].
  rewrite !providers_queried_app, Hp. cbn [providers_queried app].
  now destruct (fan_out_trace q (provider_list availableSites)) as (_ & _ & _ & ->).
Qed.

(** C2. With a non-empty query and a provider list, whichever providers
    reject, the response is a 200 without an error; its [regular_results]
    holds the results of every provider that fulfilled, and nothing else:
    a provider that rejected contributes nothing.  Every provider of the
    list was queried, with the query. *)
Theorem C2_provider_failures_isolated
  (request : Request) (q : string) (cacheTime : Z) (sites : list ApiSite) :
  keeps_payload (addCorsHeaders env) ->
  query request = Some q -> q <> "" ->
  getCacheTime env = Returned cacheTime ->
  getAvailableApiSites env (policy env request) = Returned (Some sites) ->
  exists r results,
    outcome (GET env request) = Returned r
    /\ response_status r = 200%Z
    /\ prop (response_body r) "error" = JsUndefined
    /\ prop (response_body r) "regular_results" = JsArray results
    /\ (forall site v,
          In site sites -> searchFromApi env site q = Fulfilled v ->
          exists before after, results = before ++ v ++ after)
    /\ (forall x,
          In x results ->
          exists site v,
            In site sites /\ searchFromApi env site q = Fulfilled v /\ In x v)
    /\ providers_queried (trace (GET env request)) = map (fun site => (site, q)) sites.
Proof.
  intros Hk Hq Hne Ht Hs.
  pose proof (GET_run env request q cacheTime Hq Hne Ht) as Hrun.
  cbv zeta in Hrun. rewrite Hs in Hrun. cbn [provider_list] in Hrun.
  eexists. exists (concat (fulfilled_lists env q sites)).
  split; [rewrite Hrun; reflexivity|].
  destruct (Hk (NextResponse_json (resultsBody (concat (fulfilled_lists env q sites)))
                                  (cacheHeaders cacheTime))) as (-> & ->).
  repeat split.
  - intros site v. apply fulfilled_lists_segment.
  - apply fulfilled_lists_origin.
  - now rewrite (GET_providers_queried request q cacheTime (Some sites)).
Qed.

(** C9. With a non-empty query and a non-empty provider list,
    [regular_results] is the concatenation of the result lists of the
    providers that fulfilled, in the order of the provider list. *)
Theorem C9_results_in_provider_order
  (request : Request) (q : string) (cacheTime : Z) (sites : list ApiSite) :
  keeps_payload (addCorsHeaders env) ->
  query request = Some q -> q <> "" ->
  getCacheTime env = Returned cacheTime ->
  getAvailableApiSites env (policy env request) = Returned (Some sites) ->
  sites <> [] ->
  exists r,
    outcome (GET env request) = Returned r
    /\ prop (response_body r) "regular_results"
       = JsArray (concat (fulfilled_lists env q sites)).
Proof.
  intros Hk Hq Hne Ht Hs _.
  pose proof (GET_run env request q cacheTime Hq Hne Ht) as Hrun.
  cbv zeta in Hrun. rewrite Hs in Hrun. cbn [provider_list] in Hrun.
  eexists. split; [rewrite Hrun; reflexivity|].
  now destruct (Hk (NextResponse_json
                      (resultsBody (concat (fulfilled_lists env q sites)))
                      (cacheHeaders cacheTime))) as (_ & ->).
Qed.

End Responses.

(* ================================================================= *)
(** * Empty results, errors, and what every response has *)

Section Outcomes.

Context {ApiSite : Type}.
Variable env : Collaborators ApiSite.

Lemma noSites_provider_list (availableSites : option (list ApiSite)) :
  noSites availableSites = true -> provider_list availableSites = [].
Proof.
  destruct availableSites as [[|site rest]|]; cbn; congruence.
Qed.

(** C5. When [q] is missing or empty, and when the provider list is
    [null]/[undefined] or empty, the response is a 200 with the body
    [{ regular_results: [], adult_results: [] }] and the three cache
    headers; no provider is queried, and with no query nothing but
    [getCacheTime] is called at all. *)
Theorem C5_empty_results (request : Request) (cacheTime : Z) :
  keeps_payload (addCorsHeaders env) ->
  keeps_cache_headers (addCorsHeaders env) ->
  getCacheTime env = Returned cacheTime ->
  (truthy (query request) = false
   \/ exists availableSites,
        getAvailableApiSites env (policy env request) = Returned availableSites
        /\ noSites availableSites = true) ->
  exists r,
    outcome (GET env request) = Returned r
    /\ response_status r = 200%Z
    /\ response_body r = emptyBody
    /\ has_cache_headers r cacheTime
    /\ providers_queried (trace (GET env request)) = []
    /\ (truthy (query request) = false -> trace (GET env request) = [CallGetCacheTime]).
Proof.
  intros Hk Hc Ht Hcase.
  pose proof (Hk (NextResponse_json (resultsBody []) (cacheHeaders cacheTime)))
    as (Hst & Hbody).
  pose proof (has_cache_headers_cors (addCorsHeaders env) _ cacheTime Hc
                (cacheHeaders_readable (resultsBody []) cacheTime)) as Hh.
  destruct (truthy (query request)) eqn:Hq.
  - destruct Hcase as [|(sites & Hs & Hno)]; [discriminate|].
    destruct (query request) as [q|] eqn:Hq'; [|discriminate].
    assert (q <> "") as Hne.
    { cbn in Hq. apply negb_true_iff in Hq. now apply String.eqb_neq. }
    pose proof (GET_run env request q cacheTime Hq' Hne Ht) as Hrun.
    cbv zeta in Hrun. rewrite Hs, (noSites_provider_list sites Hno) in Hrun.
    cbn [fulfilled_lists concat map] in Hrun.
    eexists. split; [rewrite Hrun; reflexivity|].
    rewrite Hst, Hbody.
    rewrite (GET_providers_queried env request q cacheTime sites Hq' Hne Ht Hs),
      (noSites_provider_list sites Hno).
    split; [reflexivity|]. split; [reflexivity|]. split; [exact Hh|].
    split; [reflexivity|]. intros Hf. rewrite Hf in Hq. discriminate.
  - rewrite (GET_no_query env request cacheTime Hq Ht).
    eexists. split; [reflexivity|].
    rewrite Hst, Hbody.
    split; [reflexivity|]. split; [reflexivity|]. split; [exact Hh|].
    split; reflexivity.
Qed.

(** C8. Every response has [adult_results] equal to the empty array; and
    the handler always responds, unless [getCacheTime] itself throws. *)
Theorem C8_adult_results_empty (request : Request) :
  keeps_payload (addCorsHeaders env) ->
  match outcome (GET env request) with
  | Returned r => prop (response_body r) "adult_results" = JsArray []
  | Thrown => getCacheTime env = Thrown
  end.
Proof.
  intros Hk.
  destruct (GET_cases env request)
    as [(Ht & ->)
       |[(cacheTime & _ & _ & ->)
        |[(cacheTime & q & _ & _ & _ & _ & ->)
         |(cacheTime & q & sites & _ & _ & _ & _ & ->)]]];
    [exact Ht| | |];
    match goal with
    | |- prop (response_body (addCorsHeaders env ?r)) _ = _ =>
        destruct (Hk r) as (_ & ->); reflexivity
    end.
Qed.

End Outcomes.

(* ================================================================= *)
(** * Worked examples *)

Section Examples.

Import Sample.

(** alice has turned filtering off and asks for adult content: the filter
    is relaxed, the fourth provider is queried, and the two failing
    providers leave no mark on the results. *)
Example run_alice_adult :
  trace (GET (env relaxed) alice_adult)
  = [ CallGetCacheTime; CallGetStorage; CallGetUserSettings "alice";
      CallGetAvailableApiSites false;
      CallSearchFromApi 1 "abc"; CallSearchFromApi 2 "abc";
      CallSearchFromApi 3 "abc"; CallSearchFromApi 5 "abc" ]
  /\ outcome (GET (env relaxed) alice_adult)
     = Returned
         (cors (NextResponse_json
                  (resultsBody
                     [ JsObject [ ("source", JsNumber 1); ("title", JsString "abc") ];
                       JsObject [ ("source", JsNumber 3); ("title", JsString "abc") ];
                       JsObject [ ("source", JsNumber 5); ("title", JsString "abc") ] ])
                  (cacheHeaders 7200))).
Proof. split; reflexivity. Qed.

Example run_no_query :
  GET (env relaxed) no_query
  = ([CallGetCacheTime],
     Returned (cors (NextResponse_json emptyBody (cacheHeaders 7200)))).
Proof. reflexivity. Qed.

Example run_cache_header :
  Headers_get (response_headers (cors (NextResponse_json emptyBody (cacheHeaders 7200))))
              "cache-control"
  = Some "public, max-age=7200, s-maxage=7200".
Proof. reflexivity. Qed.

Example run_bearer : userName bearer_alice = Some "alice".
Proof. reflexivity. Qed.

Lemma C1_filter_relaxed_iff_witness :
  (query alice_adult = Some "abc" /\ userName alice_adult = Some "alice"
   /\ getUserSettings (storage relaxed) "alice" = Returned relaxed)
  /\ exists filterAdult : bool,
       filters_passed (trace (GET (env relaxed) alice_adult)) = [filterAdult]
       /\ (filterAdult = false
           <-> prop relaxed "filter_adult_content" = JsBool false
               /\ URLSearchParams_get (searchParams alice_adult) "include_adult"
                  = Some "true")
       /\ (filterAdult = true
           <-> ~ (prop relaxed "filter_adult_content" = JsBool false
                  /\ URLSearchParams_get (searchParams alice_adult) "include_adult"
                     = Some "true")).
Proof.
  split; [repeat split|].
  apply (C1_filter_relaxed_iff (env relaxed) alice_adult "abc" "alice" 7200
           (storage relaxed) relaxed);
    try reflexivity; discriminate.
Defined.

Lemma C2_provider_failures_isolated_witness :
  (searchFromApi (env strict) 2 "abc" = Rejected (JsString "timeout")
   /\ getAvailableApiSites (env strict) (policy (env strict) alice_adult)
      = Returned (Some [1; 2; 3]))
  /\ exists r results,
       outcome (GET (env strict) alice_adult) = Returned r
       /\ response_status r = 200%Z
       /\ prop (response_body r) "error" = JsUndefined
       /\ prop (response_body r) "regular_results" = JsArray results
       /\ (forall site v,
             In site [1; 2; 3] -> searchFromApi (env strict) site "abc" = Fulfilled v ->
             exists before after, results = before ++ v ++ after)
       /\ (forall x,
             In x results ->
             exists site v,
               In site [1; 2; 3]
               /\ searchFromApi (env strict) site "abc" = Fulfilled v /\ In x v)
       /\ providers_queried (trace (GET (env strict) alice_adult))
          = map (fun site => (site, "abc")) [1; 2; 3].
Proof.
  split; [split; reflexivity|].
  apply (C2_provider_failures_isolated (env strict) alice_adult "abc" 7200 [1; 2; 3]);
    try reflexivity; [exact sample_cors_keeps_payload|discriminate].
Defined.

Lemma C3_lookup_failure_filters_witness :
  getUserSettings (storage relaxed) "bob" = Thrown
  /\ outcome (shouldFilterAdult (env relaxed) (Some "bob")) = Returned true
  /\ forall request b,
       userName request = Some "bob" ->
       In b (filters_passed (trace (GET (env relaxed) request))) -> b = true.
Proof.
  split; [reflexivity|].
  apply (C3_lookup_failure_filters (env relaxed) "bob"); [discriminate|].
  right. exists (storage relaxed). split; [reflexivity|]. left. reflexivity.
Defined.

(** bob's settings lookup throws inside the [try] block, and the response
    is a 200 all the same.  And when the provider list cannot be had and
    [addCorsHeaders] throws too, the [catch] branch fails in its turn:
    there is no response at all. *)
Lemma C4_settings_failure_gives_200 :
  (In (CallGetUserSettings "bob") (trace (GET_try (env relaxed) bob "abc" 7200))
   /\ throws (env relaxed) (CallGetUserSettings "bob") = true)
  /\ (exists r,
        outcome (GET (env relaxed) bob) = Returned r
        /\ response_status r = 200%Z
        /\ prop (response_body r) "error" = JsUndefined)
  /\ ~ any_throw_gives_500 (env relaxed) bob "abc" 7200
  /\ (In (Fallible.CallGetAvailableApiSites true)
         (Fallible.trace
            (Fallible.GET_try FallibleSample.env_cors_down bob "abc"
               FallibleSample.seconds))
      /\ Fallible.throws FallibleSample.env_cors_down
           (Fallible.CallGetAvailableApiSites true) = true
      /\ Fallible.outcome (Fallible.GET FallibleSample.env_cors_down bob) = Thrown).
Proof.
  split; [split; [cbn; tauto|reflexivity]|].
  split; [eexists; repeat split|].
  split.
  - intros H. destruct H as (r & Hr & Hs).
    + exists (CallGetUserSettings "bob"). split; [cbn; tauto|reflexivity].
    + vm_compute in Hr. injection Hr as <-. discriminate.
  - split; [cbn; tauto|]. split; reflexivity.
Qed.

Lemma C5_empty_results_witness :
  (truthy (query no_query) = false
   /\ getAvailableApiSites (env_no_sites strict) (policy (env_no_sites strict) bob)
      = Returned (Some []))
  /\ (exists r,
        outcome (GET (env strict) no_query) = Returned r
        /\ response_status r = 200%Z
        /\ response_body r = emptyBody
        /\ has_cache_headers r 7200
        /\ providers_queried (trace (GET (env strict) no_query)) = []
        /\ (truthy (query no_query) = false ->
            trace (GET (env strict) no_query) = [CallGetCacheTime]))
  /\ (exists r,
        outcome (GET (env_no_sites strict) bob) = Returned r
        /\ response_status r = 200%Z
        /\ response_body r = emptyBody
        /\ has_cache_headers r 7200
        /\ providers_queried (trace (GET (env_no_sites strict) bob)) = []
        /\ (truthy (query bob) = false ->
            trace (GET (env_no_sites strict) bob) = [CallGetCacheTime])).
Proof.
  split; [split; reflexivity|]. split.
  - apply (C5_empty_results (env strict) no_query 7200);
      [exact sample_cors_keeps_payload|exact sample_cors_keeps_cache_headers
      |reflexivity|left; reflexivity].
  - apply (C5_empty_results (env_no_sites strict) bob 7200);
      [exact sample_cors_keeps_payload|exact sample_cors_keeps_cache_headers
      |reflexivity|].
    right. exists (Some []). split; reflexivity.
Defined.

Lemma C6_userName_source_witness :
  userName alice_adult = Some "alice"
  /\ userName bearer_alice = Some "alice"
  /\ settings_lookups (trace (GET (env strict) bearer_alice)) = ["alice"].
Proof.
  destruct (C6_userName_source (env strict) alice_adult) as (_ & Huser & _).
  destruct (C6_userName_source (env strict) bearer_alice)
    as (_ & _ & Hbearer & _ & Hlookup).
  split.
  - apply (Huser "alice" []); [reflexivity|discriminate].
  - assert (userName bearer_alice = Some "alice") as Hu.
    { apply (Hbearer "Bearer alice" "alice"); reflexivity. }
    split; [exact Hu|].
    apply (Hlookup "abc" 7200%Z (storage strict) "alice");
      try exact Hu; try reflexivity; discriminate.
Defined.

Lemma C8_adult_results_empty_witness :
  match outcome (GET (env_no_config strict) alice_adult) with
  | Returned r => prop (response_body r) "adult_results" = JsArray []
  | Thrown => getCacheTime (env_no_config strict) = Thrown
  end.
Proof.
  apply (C8_adult_results_empty (env_no_config strict) alice_adult).
  exact sample_cors_keeps_payload.
Defined.

Lemma C9_results_in_provider_order_witness :
  fulfilled_lists (env relaxed) "abc" [1; 2; 3; 5]
  = [ [ JsObject [ ("source", JsNumber 1); ("title", JsString "abc") ] ];
      [ JsObject [ ("source", JsNumber 3); ("title", JsString "abc") ] ];
      [ JsObject [ ("source", JsNumber 5); ("title", JsString "abc") ] ] ]
  /\ exists r,
       outcome (GET (env relaxed) alice_adult) = Returned r
       /\ prop (response_body r) "regular_results"
          = JsArray (concat (fulfilled_lists (env relaxed) "abc" [1; 2; 3; 5])).
Proof.
  split; [reflexivity|].
  apply (C9_results_in_provider_order (env relaxed) alice_adult "abc" 7200 [1; 2; 3; 5]);
    try reflexivity; [exact sample_cors_keeps_payload|discriminate|discriminate].
Defined.

Lemma C10_anonymous_never_relaxed_witness :
  includeAdult anonymous_adult = true
  /\ settings_lookups (trace (GET (env relaxed) anonymous_adult)) = []
  /\ (forall b,
        In b (filters_passed (trace (GET (env relaxed) anonymous_adult))) -> b = true)
  /\ (forall q cacheTime,
        query anonymous_adult = Some q -> q <> "" ->
        getCacheTime (env relaxed) = Returned cacheTime ->
        filters_passed (trace (GET (env relaxed) anonymous_adult)) = [true]).
Proof.
  split; [reflexivity|].
  apply (C10_anonymous_never_relaxed (env relaxed) anonymous_adult); [reflexivity|].
  intros header [= <-]. discriminate.
Defined.

End Examples.

(* ================================================================= *)
(** * Further properties of the handler *)

Section Further.

Context {ApiSite : Type}.
Variable env : Collaborators ApiSite.

Lemma concat_fulfilled_nil (q : string) (sites : list ApiSite) :
  concat (fulfilled_lists env q sites) = []
  <-> forall site v,
        In site sites -> searchFromApi env site q = Fulfilled v -> v = [].
Proof.
  induction sites as [|s rest IH]; cbn [fulfilled_lists].
  - split; [intros _ site v []|reflexivity].
  - destruct (searchFromApi env s q) as [w|reason] eqn:E.
    + cbn [concat]. split.
      * intros Hnil. apply app_eq_nil in Hnil. destruct Hnil as (Hw & Hrest).
        intros site v [<-|Hin] Hv.
        -- congruence.
        -- now apply (proj1 IH Hrest site v).
      * intros Hall. rewrite (Hall s w (or_introl eq_refl) E). cbn.
        apply IH. intros site v Hin. apply Hall. now right.
    + rewrite IH. split.
      * intros Hall site v [<-|Hin] Hv; [congruence|now apply (Hall site v)].
      * intros Hall site v Hin. apply Hall. now right.
Qed.

(** X2. A 500 response carries none of the three cache headers: the
    handler gives the error response a status and nothing else. *)
Theorem error_response_has_no_cache_headers (request : Request) (r : Response) :
  keeps_payload (addCorsHeaders env) ->
  keeps_cache_headers (addCorsHeaders env) ->
  outcome (GET env request) = Returned r ->
  response_status r = 500%Z ->
  forall name, In name cacheHeaderNames ->
    Headers_get (response_headers r) name = None.
Proof.
  intros Hk Hc Hout Hst name Hin.
  destruct (GET_cases env request)
    as [(Ht & E)
       |[(cacheTime & Ht & Hq & E)
        |[(cacheTime & q & Ht & Hq & Hne & Hs & E)
         |(cacheTime & q & sites & Ht & Hq & Hne & Hs & E)]]];
    rewrite E in Hout; [discriminate| | |];
    injection Hout as <-.
  - exfalso. destruct (Hk (NextResponse_json (resultsBody []) (cacheHeaders cacheTime)))
      as (Hs & _).
    rewrite Hs in Hst. discriminate.
  - rewrite (Hc _ name Hin).
    cbn in Hin. destruct Hin as [<-|[<-|[<-|[]]]]; reflexivity.
  - exfalso.
    match type of Hst with
    | context [addCorsHeaders env ?r0] => destruct (Hk r0) as (Hs' & _)
    end.
    rewrite Hs' in Hst. discriminate.
Qed.

(** X4. With a non-empty query and a provider list, the response is a
    200 whose body is [{ regular_results: [], adult_results: [] }]
    exactly when no provider fulfilled with a non-empty list; so when
    every provider rejects, the client sees the same as with no provider
    at all. *)
Theorem no_results_iff_nothing_fulfilled
  (request : Request) (q : string) (cacheTime : Z) (sites : list ApiSite) :
  keeps_payload (addCorsHeaders env) ->
  query request = Some q -> q <> "" ->
  getCacheTime env = Returned cacheTime ->
  getAvailableApiSites env (policy env request) = Returned (Some sites) ->
  exists r,
    outcome (GET env request) = Returned r
    /\ response_status r = 200%Z
    /\ (response_body r = emptyBody
        <-> forall site v,
              In site sites -> searchFromApi env site q = Fulfilled v -> v = []).
Proof.
  intros Hk Hq Hne Ht Hs.
  pose proof (GET_run env request q cacheTime Hq Hne Ht) as Hrun.
  cbv zeta in Hrun. rewrite Hs in Hrun. cbn [provider_list] in Hrun.
  eexists. split; [rewrite Hrun; reflexivity|].
  destruct (Hk (NextResponse_json (resultsBody (concat (fulfilled_lists env q sites)))
                                  (cacheHeaders cacheTime))) as (-> & ->).
  split; [reflexivity|].
  rewrite <- concat_fulfilled_nil. cbn [NextResponse_json response_body].
  unfold resultsBody, emptyBody. split.
  - intros [= H]. exact H.
  - intros ->. reflexivity.
Qed.

End Further.

Section FurtherPolicy.

Context {ApiSite : Type}.
Variable env : Collaborators ApiSite.

(** The settings lookup answers "do not filter" only for a named user
    whose stored settings say so. *)
Lemma shouldFilterAdult_false_iff (u : option string) :
  outcome (shouldFilterAdult env u) = Returned false
  <-> exists name storage userSettings,
        u = Some name /\ name <> ""
        /\ getStorage env = Returned storage
        /\ getUserSettings storage name = Returned userSettings
        /\ prop userSettings "filter_adult_content" = JsBool false.
Proof.
  split.
  - intros Hout.
    destruct (truthy u) eqn:Hu;
      [|rewrite (shouldFilterAdult_anonymous env u Hu) in Hout; discriminate].
    destruct u as [name|]; [|discriminate].
    assert (name <> "") as Hn.
    { cbn in Hu. apply negb_true_iff in Hu. now apply String.eqb_neq. }
    destruct (getStorage env) as [storage|] eqn:Hst;
      [|rewrite (shouldFilterAdult_no_storage env name Hn Hst) in Hout; discriminate].
    destruct (getUserSettings storage name) as [us|] eqn:Hl;
      [|rewrite (shouldFilterAdult_lookup_thrown env name storage Hn Hst Hl) in Hout;
        discriminate].
    rewrite (shouldFilterAdult_lookup_returned env name storage us Hn Hst Hl) in Hout.
    cbn [outcome snd] in Hout. injection Hout as Hf.
    rewrite optional_prop_prop in Hf. apply strict_neq_false_iff in Hf.
    exists name, storage, us. auto.
  - intros (name & storage & us & -> & Hn & Hst & Hl & Hf).
    rewrite (shouldFilterAdult_lookup_returned env name storage us Hn Hst Hl).
    cbn [outcome snd]. now rewrite optional_prop_prop, Hf.
Qed.

(** X6. Whatever filter a run hands to [getAvailableApiSites], it is
    [false] only when [include_adult] is exactly ["true"] and the request
    names a user whose settings were read and have
    [filter_adult_content] equal to [false]; a request that does not ask
    for adult content is filtered whoever sends it. *)
Theorem filter_relaxed_only_on_request (request : Request) (b : bool) :
  In b (filters_passed (trace (GET env request))) ->
  (b = false
   <-> URLSearchParams_get (searchParams request) "include_adult" = Some "true"
       /\ exists name storage userSettings,
            userName request = Some name /\ name <> ""
            /\ getStorage env = Returned storage
            /\ getUserSettings storage name = Returned userSettings
            /\ prop userSettings "filter_adult_content" = JsBool false).
Proof.
  intros Hb. apply GET_filters_passed_any in Hb. subst b.
  rewrite <- includeAdult_iff, <- shouldFilterAdult_false_iff.
  destruct (shouldFilterAdult_returns env (userName request)) as [f Hf].
  rewrite (policy_eq env request f Hf), Hf.
  destruct f, (includeAdult request); cbn; split;
    try discriminate; try (intros (? & ?); discriminate); auto.
Qed.

(** X7. The user name, the headers and the other parameters bear on the
    response only through the filter: two requests with the same query
    for which the handler settles on the same filter get the same
    response, and the same providers are asked the same question. *)
Theorem identity_matters_only_through_filter (request1 request2 : Request) :
  query request1 = query request2 ->
  policy env request1 = policy env request2 ->
  outcome (GET env request1) = outcome (GET env request2)
  /\ providers_queried (trace (GET env request1))
     = providers_queried (trace (GET env request2)).
Proof.
  intros Hq Hp.
  destruct (getCacheTime env) as [cacheTime|] eqn:Ht;
    [|now rewrite !(GET_cache_thrown env _ Ht)].
  destruct (truthy (query request1)) eqn:Hq1.
  - destruct (query request1) as [q|] eqn:Hq1'; [|discriminate].
    assert (q <> "") as Hne.
    { cbn in Hq1. apply negb_true_iff in Hq1. now apply String.eqb_neq. }
    symmetry in Hq.
    destruct (shouldFilterAdult_trace env (userName request1)) as (_ & Hp1 & _).
    destruct (shouldFilterAdult_trace env (userName request2)) as (_ & Hp2 & _).
    rewrite (GET_run env request1 q cacheTime Hq1' Hne Ht),
      (GET_run env request2 q cacheTime Hq Hne Ht).
    cbv zeta. rewrite <- Hp.
    destruct (getAvailableApiSites env (policy env request1)) as [sites|];
      cbn [trace outcome fst snd providers_queried];
      rewrite !providers_queried_app, Hp1, Hp2; split; reflexivity.
  - assert (truthy (query request2) = false) as Hq2 by now rewrite <- Hq.
    rewrite (GET_no_query env request1 cacheTime Hq1 Ht),
      (GET_no_query env request2 cacheTime Hq2 Ht).
    split; reflexivity.
Qed.

End FurtherPolicy.

Section FurtherExamples.

Import Sample.

Example run_all_down :
  GET (env_all_down strict) bob
  = ([ CallGetCacheTime; CallGetStorage; CallGetUserSettings "bob";
       CallGetAvailableApiSites true;
       CallSearchFromApi 2 "abc"; CallSearchFromApi 4 "abc" ],
     Returned (cors (NextResponse_json emptyBody (cacheHeaders 7200)))).
Proof. reflexivity. Qed.

Example run_no_cache_time :
  GET (env_no_cache_time strict) alice_adult = ([CallGetCacheTime], Thrown).
Proof. reflexivity. Qed.

Lemma error_response_has_no_cache_headers_witness :
  response_status (cors (NextResponse_json errorBody errorInit)) = 500%Z
  /\ forall name, In name cacheHeaderNames ->
       Headers_get (response_headers (cors (NextResponse_json errorBody errorInit))) name
       = None.
Proof.
  split; [reflexivity|].
  apply (error_response_has_no_cache_headers (env_no_config strict) alice_adult);
    [exact sample_cors_keeps_payload|exact sample_cors_keeps_cache_headers
    |reflexivity|reflexivity].
Defined.

Lemma no_results_iff_nothing_fulfilled_witness :
  (searchFromApi (env_all_down strict) 2 "abc" = Rejected (JsString "timeout")
   /\ searchFromApi (env_all_down strict) 4 "abc" = Rejected (JsString "timeout"))
  /\ exists r,
       outcome (GET (env_all_down strict) bob) = Returned r
       /\ response_status r = 200%Z
       /\ (response_body r = emptyBody
           <-> forall site v,
                 In site [2; 4] ->
                 searchFromApi (env_all_down strict) site "abc" = Fulfilled v -> v = []).
Proof.
  split; [split; reflexivity|].
  apply (no_results_iff_nothing_fulfilled (env_all_down strict) bob "abc" 7200 [2; 4]);
    try reflexivity; [exact sample_cors_keeps_payload|discriminate].
Defined.

Lemma filter_relaxed_only_on_request_witness :
  filters_passed (trace (GET (env relaxed) alice_adult)) = [false]
  /\ (false = false
      <-> URLSearchParams_get (searchParams alice_adult) "include_adult" = Some "true"
          /\ exists name storage userSettings,
               userName alice_adult = Some name /\ name <> ""
               /\ getStorage (env relaxed) = Returned storage
               /\ getUserSettings storage name = Returned userSettings
               /\ prop userSettings "filter_adult_content" = JsBool false).
Proof.
  split; [reflexivity|].
  apply (filter_relaxed_only_on_request (env relaxed) alice_adult false).
  cbn. tauto.
Defined.

Lemma identity_matters_only_through_filter_witness :
  (userName alice_adult = Some "alice" /\ userName anonymous_adult = None)
  /\ outcome (GET (env strict) alice_adult) = outcome (GET (env strict) anonymous_adult)
  /\ providers_queried (trace (GET (env strict) alice_adult))
     = providers_queried (trace (GET (env strict) anonymous_adult)).
Proof.
  split; [split; reflexivity|].
  apply (identity_matters_only_through_filter (env strict) alice_adult anonymous_adult);
    reflexivity.
Defined.

End FurtherExamples.

(* ================================================================= *)
(** * The handler when every call may throw *)

Section FallibleFacts.

Import Fallible.
Local Open Scope fallible_scope.

Context {ApiSite : Type}.
Variable env : Collaborators ApiSite.

(** A run is honest when it throws exactly if one of its calls threw
    outside the inner [try]; it is quiet when it never asks for the
    cache time. *)
Local Notation "'honest' m" :=
  (outcome m = Thrown <-> unguarded_throw env (trace m) = true)
  (at level 10, m at level 9, only parsing).
Local Notation "'quiet' m" := (cache_time_calls (trace m) = 0)
  (at level 10, m at level 9, only parsing).

Lemma fallible_bind_returned {A B : Type} (t : list (Event ApiSite)) (a : A)
  (k : A -> Run ApiSite B) :
  bind (t, Returned a) k = (t ++ trace (k a), outcome (k a)).
Proof. unfold bind, trace, outcome. destruct (k a); reflexivity. Qed.

Lemma fallible_bind_outcome {A B : Type} (m : Run ApiSite A) (k : A -> Run ApiSite B)
  (b : B) :
  outcome (bind m k) = Returned b ->
  exists a, outcome m = Returned a /\ outcome (k a) = Returned b.
Proof.
  destruct m as [t [a|]]; [|discriminate].
  rewrite fallible_bind_returned. cbn. intros H. now exists a.
Qed.

Lemma unguarded_throw_app (t u : list (Event ApiSite)) :
  unguarded_throw env (t ++ u) = unguarded_throw env t || unguarded_throw env u.
Proof. apply existsb_app. Qed.

Lemma fallible_cache_time_calls_app (t u : list (Event ApiSite)) :
  cache_time_calls (t ++ u) = cache_time_calls t + cache_time_calls u.
Proof.
  induction t as [|e t IH]; [reflexivity|].
  destruct e; cbn; now rewrite ?IH.
Qed.

Lemma fallible_bind_honest {A B : Type} (m : Run ApiSite A) (k : A -> Run ApiSite B) :
  honest m -> (forall a, honest (k a)) -> honest (bind m k).
Proof.
  intros Hm Hk. destruct m as [t [a|]].
  - rewrite fallible_bind_returned. cbn [trace outcome fst snd] in *.
    rewrite unguarded_throw_app.
    destruct (unguarded_throw env t) eqn:E.
    + destruct Hm as (_ & Hm). specialize (Hm eq_refl). discriminate.
    + cbn [orb]. apply Hk.
  - cbn [bind trace outcome fst snd] in *. destruct Hm as (Hm & _).
    split; [intros _; now apply Hm|reflexivity].
Qed.

Lemma fallible_bind_quiet {A B : Type} (m : Run ApiSite A) (k : A -> Run ApiSite B) :
  quiet m -> (forall a, quiet (k a)) -> quiet (bind m k).
Proof.
  intros Hm Hk. destruct m as [t [a|]].
  - rewrite fallible_bind_returned. cbn [trace fst] in *.
    now rewrite fallible_cache_time_calls_app, Hm, Hk.
  - exact Hm.
Qed.

(** The settings lookup returns whatever happens, and what it calls is
    guarded. *)
Lemma fallible_shouldFilterAdult (u : option string) :
  (exists b, outcome (shouldFilterAdult env u) = Returned b)
  /\ unguarded_throw env (trace (shouldFilterAdult env u)) = false
  /\ quiet (shouldFilterAdult env u).
Proof.
  assert (forall (t : list (Event ApiSite)) (b : bool),
             unguarded_throw env t = false -> cache_time_calls t = 0 ->
             (exists b', outcome (t, Returned b) = Returned b')
             /\ unguarded_throw env (trace (t, Returned b)) = false
             /\ cache_time_calls (trace (t, Returned b)) = 0) as Hdone.
  { intros t b Hu Hq. split; [now exists b|]. now split. }
  assert (forall name,
             unguarded_throw env [CallGetStorage] = false
             /\ unguarded_throw env [CallGetStorage; CallGetUserSettings name] = false)
    as Hguarded.
  { intros name. unfold unguarded_throw.
    cbn [existsb is_settings_lookup negb]. now rewrite !andb_false_r. }
  unfold shouldFilterAdult.
  destruct u as [name|]; [|now apply Hdone].
  destruct (truthy (Some name)); [|now apply Hdone].
  destruct (Hguarded name) as (Hg1 & Hg2).
  unfold bind, call, try_catch, ret; cbn [fst snd app].
  destruct (getStorage env) as [storage|]; cbn [app]; [|now apply Hdone].
  destruct (getUserSettings storage name); cbn [app]; now apply Hdone.
Qed.

Lemma fallible_finalShouldFilter (request : Request) :
  (exists b, outcome (finalShouldFilter env request) = Returned b)
  /\ unguarded_throw env (trace (finalShouldFilter env request)) = false
  /\ quiet (finalShouldFilter env request).
Proof.
  unfold finalShouldFilter.
  destruct (fallible_shouldFilterAdult (userName request)) as ((b & Hb) & Hu & Hq).
  destruct (shouldFilterAdult env (userName request)) as [t o].
  cbn [outcome trace fst snd] in *. subst o.
  rewrite fallible_bind_returned. cbn. rewrite app_nil_r.
  split; [eexists; reflexivity|]. now split.
Qed.

Lemma fallible_respond_honest (body : JsValue) (init : ResponseInit) :
  honest (respond env body init) /\ quiet (respond env body init).
Proof.
  unfold respond, NextResponse_json, call.
  destruct (serializable env body) eqn:Hs.
  - rewrite fallible_bind_returned. cbn [trace outcome fst snd app].
    unfold unguarded_throw. cbn [existsb throws is_settings_lookup negb andb orb].
    rewrite Hs. cbn [negb andb orb cache_time_calls].
    destruct (addCorsHeaders env (Web.NextResponse_json body init));
      cbn; split; try reflexivity; split; congruence.
  - cbn [bind trace outcome fst snd].
    unfold unguarded_throw. cbn [existsb throws is_settings_lookup negb andb orb].
    rewrite Hs. cbn. split; [split; reflexivity|reflexivity].
Qed.

Lemma fallible_respond_returned (body : JsValue) (init : ResponseInit) (r : Response) :
  outcome (respond env body init) = Returned r ->
  serializable env body = true
  /\ addCorsHeaders env (Web.NextResponse_json body init) = Returned r.
Proof.
  unfold respond, NextResponse_json, call.
  destruct (serializable env body); [|discriminate].
  rewrite fallible_bind_returned. cbn. auto.
Qed.

Lemma fallible_fan_out_honest (q : string) (sites : list ApiSite) :
  honest (Array_map (fun site => call (CallSearchFromApi site q)
                                      (searchFromApi env site q)) sites)
  /\ quiet (Array_map (fun site => call (CallSearchFromApi site q)
                                        (searchFromApi env site q)) sites).
Proof.
  induction sites as [|site rest (IHh & IHq)]; cbn [Array_map].
  - cbn. split; [split; discriminate|reflexivity].
  - split.
    + apply fallible_bind_honest.
      * unfold call, unguarded_throw. cbn.
        destruct (searchFromApi env site q); cbn; split; congruence.
      * intros y. apply fallible_bind_honest; [exact IHh|].
        intros ys. cbn. split; discriminate.
    + apply fallible_bind_quiet; [reflexivity|].
      intros y. apply fallible_bind_quiet; [exact IHq|reflexivity].
Qed.

Lemma fallible_searchResults_honest (sites : list ApiSite) (q : string) :
  honest (searchResults env sites q) /\ quiet (searchResults env sites q).
Proof.
  destruct (fallible_fan_out_honest q sites) as (Hh & Hq).
  unfold searchResults. split.
  - apply fallible_bind_honest; [exact Hh|]. intros ys. cbn. split; discriminate.
  - apply fallible_bind_quiet; [exact Hq|reflexivity].
Qed.

(** The [try] block throws exactly when a call that is not behind the
    inner [try] threw. *)
Lemma fallible_GET_try_honest (request : Request) (q : string) (cacheTime : Number) :
  honest (GET_try env request q cacheTime) /\ quiet (GET_try env request q cacheTime).
Proof.
  destruct (fallible_finalShouldFilter request) as ((b & Hb) & Hu & Hq).
  unfold GET_try. split.
  - apply fallible_bind_honest.
    + rewrite Hb, Hu. split; discriminate.
    + intros f. apply fallible_bind_honest.
      * unfold call, unguarded_throw. cbn.
        destruct (getAvailableApiSites env f); cbn; split; congruence.
      * intros [sites|]; [|apply fallible_respond_honest].
        destruct (noSites (Some sites)); [apply fallible_respond_honest|].
        apply fallible_bind_honest; [apply fallible_searchResults_honest|].
        intros results. apply fallible_respond_honest.
  - apply fallible_bind_quiet; [exact Hq|].
    intros f. apply fallible_bind_quiet; [reflexivity|].
    intros [sites|]; [|apply fallible_respond_honest].
    destruct (noSites (Some sites)); [apply fallible_respond_honest|].
    apply fallible_bind_quiet; [apply fallible_searchResults_honest|].
    intros results. apply fallible_respond_honest.
Qed.

(** When the [try] block returns, it returns a response built from a
    result list and the cache headers. *)
Lemma fallible_GET_try_returned (request : Request) (q : string) (cacheTime : Number)
  (r : Response) :
  outcome (GET_try env request q cacheTime) = Returned r ->
  exists results,
    outcome (respond env (resultsBody results) (cacheHeaders cacheTime)) = Returned r.
Proof.
  unfold GET_try. intros H.
  apply fallible_bind_outcome in H. destruct H as (f & _ & H).
  apply fallible_bind_outcome in H. destruct H as (sites & _ & H).
  destruct sites as [sites|]; [|now exists []].
  destruct (noSites (Some sites)); [now exists []|].
  apply fallible_bind_outcome in H. destruct H as (results & _ & H).
  now exists results.
Qed.

(** The three ways into the handler. *)
Lemma fallible_GET_cache_thrown (request : Request) :
  getCacheTime env = Thrown -> GET env request = ([CallGetCacheTime], Thrown).
Proof. intros Ht. unfold GET. now rewrite Ht. Qed.

Lemma fallible_GET_no_query (request : Request) (cacheTime : Number) :
  truthy (query request) = false ->
  getCacheTime env = Returned cacheTime ->
  GET env request
  = (CallGetCacheTime :: trace (respond env (resultsBody []) (cacheHeaders cacheTime)),
     outcome (respond env (resultsBody []) (cacheHeaders cacheTime))).
Proof.
  intros Hq Ht. unfold GET. rewrite Ht. unfold call at 1.
  rewrite fallible_bind_returned.
  destruct (query request) as [q|]; [rewrite Hq|]; reflexivity.
Qed.

Lemma fallible_GET_query (request : Request) (q : string) (cacheTime : Number) :
  query request = Some q -> q <> "" ->
  getCacheTime env = Returned cacheTime ->
  GET env request
  = match outcome (GET_try env request q cacheTime) with
    | Returned r =>
        (CallGetCacheTime :: trace (GET_try env request q cacheTime), Returned r)
    | Thrown =>
        (CallGetCacheTime :: trace (GET_try env request q cacheTime)
           ++ trace (GET_catch env),
         outcome (GET_catch env))
    end.
Proof.
  intros Hq Hne Ht. unfold GET. rewrite Ht, Hq. unfold call at 1.
  rewrite fallible_bind_returned.
  unfold truthy. apply String.eqb_neq in Hne. rewrite Hne. cbn [negb].
  unfold try_catch.
  destruct (GET_try env request q cacheTime) as [t [r|]]; cbn [trace outcome fst snd].
  - reflexivity.
  - destruct (GET_catch env) as [t' o]. reflexivity.
Qed.

End FallibleFacts.

Section FallibleOutcomes.

Import Fallible.
Local Open Scope fallible_scope.

Context {ApiSite : Type}.
Variable env : Collaborators ApiSite.

Lemma fallible_unguarded_iff (t : list (Event ApiSite)) :
  unguarded_throw env t = true
  <-> exists e, In e t /\ throws env e = true /\ is_settings_lookup e = false.
Proof.
  unfold unguarded_throw. rewrite existsb_exists. split.
  - intros (e & Hin & He). apply andb_true_iff in He. destruct He as (Ht & Hs).
    apply negb_true_iff in Hs. now exists e.
  - intros (e & Hin & Ht & Hs). exists e. split; [exact Hin|].
    now rewrite Ht, Hs.
Qed.

Lemma fallible_respond_payload (body : JsValue) (init : ResponseInit) (r : Response) :
  keeps_payload env ->
  outcome (respond env body init) = Returned r ->
  response_status r = response_status (Web.NextResponse_json body init)
  /\ response_body r = body.
Proof.
  intros Hk Hr. apply fallible_respond_returned in Hr. destruct Hr as (_ & Hc).
  now destruct (Hk _ _ Hc) as (-> & ->).
Qed.

Lemma fallible_GET_cache_time_calls (request : Request) :
  cache_time_calls (trace (GET env request)) = 1.
Proof.
  destruct (getCacheTime env) as [cacheTime|] eqn:Ht;
    [|now rewrite (fallible_GET_cache_thrown env request Ht)].
  destruct (truthy (query request)) eqn:Hq.
  - destruct (query request) as [q|] eqn:Hq'; [|discriminate].
    assert (q <> "") as Hne.
    { cbn in Hq. apply negb_true_iff in Hq. now apply String.eqb_neq. }
    rewrite (fallible_GET_query env request q cacheTime Hq' Hne Ht).
    destruct (fallible_GET_try_honest env request q cacheTime) as (_ & Hquiet).
    destruct (fallible_respond_honest env errorBody errorInit) as (_ & Hcatch).
    destruct (outcome (GET_try env request q cacheTime));
      cbn [trace fst cache_time_calls].
    + now rewrite Hquiet.
    + rewrite fallible_cache_time_calls_app, Hquiet. exact (f_equal S Hcatch).
  - rewrite (fallible_GET_no_query env request cacheTime Hq Ht).
    destruct (fallible_respond_honest env (resultsBody []) (cacheHeaders cacheTime))
      as (_ & Hquiet).
    cbn [trace fst cache_time_calls]. now rewrite Hquiet.
Qed.

(** C4. With a non-empty query, when a call of the [try] block throws
    that is not part of the settings lookup -- [getAvailableApiSites], a
    [searchFromApi] call that throws before it yields a promise,
    [NextResponse.json] or [addCorsHeaders] on the response about to be
    returned -- the [catch] branch runs; when that branch returns, its
    response is what the handler answers: a 500 whose body has empty
    [regular_results] and [adult_results] and a non-empty [error]
    string. *)
Theorem C4_error_response (request : Request) (q : string) (cacheTime : Number) :
  keeps_payload env ->
  query request = Some q -> q <> "" ->
  getCacheTime env = Returned cacheTime ->
  (exists e,
     In e (trace (GET_try env request q cacheTime))
     /\ throws env e = true
     /\ is_settings_lookup e = false) ->
  (exists r, outcome (GET_catch env) = Returned r) ->
  exists r,
    outcome (GET env request) = Returned r
    /\ response_status r = 500%Z
    /\ prop (response_body r) "regular_results" = JsArray []
    /\ prop (response_body r) "adult_results" = JsArray []
    /\ exists message,
         prop (response_body r) "error" = JsString message /\ message <> "".
Proof.
  intros Hk Hq Hne Ht Hthrow (r & Hr).
  apply fallible_unguarded_iff in Hthrow.
  apply (proj1 (fallible_GET_try_honest env request q cacheTime)) in Hthrow.
  exists r. split.
  { rewrite (fallible_GET_query env request q cacheTime Hq Hne Ht), Hthrow.
    exact Hr. }
  destruct (fallible_respond_payload errorBody errorInit r Hk Hr) as (-> & ->).
  repeat split. eexists. split; [reflexivity|discriminate].
Qed.

(** X1. A response is a 200 or a 500.  It is a 500 exactly when its body
    has an [error] field, and exactly when the query was not empty and
    some call of the [try] block outside the settings lookup threw. *)
Theorem status_is_200_or_500 (request : Request) (r : Response) :
  keeps_payload env ->
  outcome (GET env request) = Returned r ->
  (response_status r = 200%Z \/ response_status r = 500%Z)
  /\ (response_status r = 500%Z
      <-> prop (response_body r) "error" <> JsUndefined)
  /\ (response_status r = 500%Z
      <-> exists q cacheTime,
            query request = Some q /\ q <> ""
            /\ getCacheTime env = Returned cacheTime
            /\ exists e,
                 In e (trace (GET_try env request q cacheTime))
                 /\ throws env e = true
                 /\ is_settings_lookup e = false).
Proof.
  intros Hk Hout.
  destruct (getCacheTime env) as [cacheTime|] eqn:Ht;
    [|rewrite (fallible_GET_cache_thrown env request Ht) in Hout; discriminate].
  destruct (truthy (query request)) eqn:Hq.
  - destruct (query request) as [q|] eqn:Hq'; [|discriminate].
    assert (q <> "") as Hne.
    { cbn in Hq. apply negb_true_iff in Hq. now apply String.eqb_neq. }
    rewrite (fallible_GET_query env request q cacheTime Hq' Hne Ht) in Hout.
    pose proof (proj1 (fallible_GET_try_honest env request q cacheTime)) as Hhonest.
    rewrite fallible_unguarded_iff in Hhonest.
    destruct (outcome (GET_try env request q cacheTime)) as [r'|] eqn:Htry;
      cbn [outcome snd] in Hout.
    + injection Hout as ->.
      apply fallible_GET_try_returned in Htry. destruct Htry as (results & Hr).
      destruct (fallible_respond_payload _ _ r Hk Hr) as (-> & ->). cbn.
      split; [now left|]. split.
      * split; [discriminate|]. intros H. now contradiction H.
      * split; [discriminate|].
        intros (q' & t' & [= <-] & _ & [= <-] & He).
        apply Hhonest in He. discriminate.
    + destruct (fallible_respond_payload errorBody errorInit r Hk Hout) as (-> & ->).
      cbn. split; [now right|]. split.
      * split; [discriminate|reflexivity].
      * split; [|reflexivity]. intros _. exists q, cacheTime.
        repeat split; try assumption. now apply Hhonest.
  - rewrite (fallible_GET_no_query env request cacheTime Hq Ht) in Hout.
    destruct (fallible_respond_payload _ _ r Hk Hout) as (-> & ->). cbn.
    split; [now left|]. split.
    + split; [discriminate|]. intros H. now contradiction H.
    + split; [discriminate|].
      intros (q' & t' & Hq' & Hne & _). rewrite Hq' in Hq. cbn in Hq.
      apply negb_false_iff, String.eqb_eq in Hq. contradiction.
Qed.

(** X3. As long as the empty response and the error response can be
    built, the handler itself throws exactly when [getCacheTime] throws
    (the call is awaited before the [try] block), and nothing else has
    been called by then: no failure of the storage, of the provider
    list, of a provider, or of building the response of a search gets
    out of the handler. *)
Theorem handler_throws_iff_cache_time_throws (request : Request) :
  (forall cacheTime,
     exists r, outcome (respond env (resultsBody []) (cacheHeaders cacheTime))
               = Returned r) ->
  (exists r, outcome (GET_catch env) = Returned r) ->
  (outcome (GET env request) = Thrown <-> getCacheTime env = Thrown)
  /\ (getCacheTime env = Thrown -> trace (GET env request) = [CallGetCacheTime]).
Proof.
  intros Hempty (r & Hcatch). split.
  - split.
    + intros Hout.
      destruct (getCacheTime env) as [cacheTime|] eqn:Ht; [exfalso|reflexivity].
      destruct (truthy (query request)) eqn:Hq.
      * destruct (query request) as [q|] eqn:Hq'; [|discriminate].
        assert (q <> "") as Hne.
        { cbn in Hq. apply negb_true_iff in Hq. now apply String.eqb_neq. }
        rewrite (fallible_GET_query env request q cacheTime Hq' Hne Ht) in Hout.
        destruct (outcome (GET_try env request q cacheTime));
          cbn [outcome snd] in Hout; congruence.
      * rewrite (fallible_GET_no_query env request cacheTime Hq Ht) in Hout.
        destruct (Hempty cacheTime) as (r' & Hr'). cbn [outcome snd] in Hout.
        congruence.
    + intros Ht. now rewrite (fallible_GET_cache_thrown env request Ht).
  - intros Ht. now rewrite (fallible_GET_cache_thrown env request Ht).
Qed.

End FallibleOutcomes.

Section FallibleCacheHeaders.

Import Fallible.
Local Open Scope fallible_scope.

Context {ApiSite : Type}.
Variable env : Collaborators ApiSite.

(** However a number prints, it prints without a comma. *)
Lemma fallible_Number_toString_no_comma (n : Number) : no_comma (Number_toString n).
Proof.
  destruct n as [z safe|text| |[|]]; cbn [Number_toString].
  - apply Number_toString_no_comma.
  - induction text as [|c text IH]; intros x; cbn; [intros []|].
    intros [<-|Hin]; [destruct c; discriminate|now apply IH].
  - intros x Hin. cbn in Hin. repeat (destruct Hin as [<-|Hin]; [discriminate|]).
    destruct Hin.
  - intros x Hin. cbn in Hin. repeat (destruct Hin as [<-|Hin]; [discriminate|]).
    destruct Hin.
  - intros x Hin. cbn in Hin. repeat (destruct Hin as [<-|Hin]; [discriminate|]).
    destruct Hin.
Qed.

Lemma fallible_cacheHeaders_readable (body : JsValue) (cacheTime : Number) :
  has_cache_headers (Web.NextResponse_json body (cacheHeaders cacheTime)) cacheTime.
Proof. repeat split. Qed.

Lemma fallible_respond_cache_headers (body : JsValue) (cacheTime : Number)
  (r : Response) :
  keeps_cache_headers env ->
  outcome (respond env body (cacheHeaders cacheTime)) = Returned r ->
  has_cache_headers r cacheTime.
Proof.
  intros Hc Hr. apply fallible_respond_returned in Hr. destruct Hr as (_ & Hr).
  destruct (fallible_cacheHeaders_readable body cacheTime) as (H1 & H2 & H3).
  unfold has_cache_headers.
  rewrite !(Hc _ _ _ Hr); [now repeat split| | |]; cbn; tauto.
Qed.

(** C7. Every 200 response carries [Cache-Control], [CDN-Cache-Control]
    and [Vercel-CDN-Cache-Control]; [getCacheTime] was called once, and
    every [max-age] and [s-maxage] duration written in the three headers
    is the value that call returned, as JavaScript prints it; when that
    value is a safe integer, a client reading the durations as numbers
    of seconds gets it back. *)
Theorem C7_cache_headers_from_one_value (request : Request) (r : Response) :
  keeps_payload env ->
  keeps_cache_headers env ->
  outcome (GET env request) = Returned r ->
  response_status r = 200%Z ->
  exists cacheTime,
    getCacheTime env = Returned cacheTime
    /\ cache_time_calls (trace (GET env request)) = 1
    /\ has_cache_headers r cacheTime
    /\ duration_texts (Headers_get (response_headers r) "Cache-Control")
       = [Number_toString cacheTime; Number_toString cacheTime]
    /\ duration_texts (Headers_get (response_headers r) "CDN-Cache-Control")
       = [Number_toString cacheTime]
    /\ duration_texts (Headers_get (response_headers r) "Vercel-CDN-Cache-Control")
       = [Number_toString cacheTime]
    /\ forall n safe,
         cacheTime = SafeInteger n safe ->
         durations (Headers_get (response_headers r) "Cache-Control")
         = [Some n; Some n]
         /\ durations (Headers_get (response_headers r) "CDN-Cache-Control")
            = [Some n]
         /\ durations (Headers_get (response_headers r) "Vercel-CDN-Cache-Control")
            = [Some n].
Proof.
  intros Hk Hc Hout Hst.
  assert (exists cacheTime,
             getCacheTime env = Returned cacheTime /\ has_cache_headers r cacheTime)
    as (cacheTime & Ht & H1 & H2 & H3).
  { destruct (getCacheTime env) as [cacheTime|] eqn:Ht;
      [|rewrite (fallible_GET_cache_thrown env request Ht) in Hout; discriminate].
    exists cacheTime. split; [reflexivity|].
    destruct (truthy (query request)) eqn:Hq.
    - destruct (query request) as [q|] eqn:Hq'; [|discriminate].
      assert (q <> "") as Hne.
      { cbn in Hq. apply negb_true_iff in Hq. now apply String.eqb_neq. }
      rewrite (fallible_GET_query env request q cacheTime Hq' Hne Ht) in Hout.
      destruct (outcome (GET_try env request q cacheTime)) as [r'|] eqn:Htry;
        cbn [outcome snd] in Hout.
      + injection Hout as ->.
        apply fallible_GET_try_returned in Htry. destruct Htry as (results & Hr).
        exact (fallible_respond_cache_headers _ _ r Hc Hr).
      + exfalso.
        destruct (fallible_respond_payload env errorBody errorInit r Hk Hout)
          as (Hs & _).
        rewrite Hs in Hst. discriminate.
    - rewrite (fallible_GET_no_query env request cacheTime Hq Ht) in Hout.
      exact (fallible_respond_cache_headers _ _ r Hc Hout). }
  exists cacheTime.
  destruct (duration_texts_of_templates (Number_toString cacheTime)
              (fallible_Number_toString_no_comma cacheTime)) as (D1 & D2).
  split; [exact Ht|]. split; [apply fallible_GET_cache_time_calls|].
  split; [now repeat split|].
  unfold durations. rewrite H1, H2, H3, D1, D2.
  split; [reflexivity|]. split; [reflexivity|]. split; [reflexivity|].
  intros n safe ->. cbn [Number_toString map].
  now rewrite read_seconds_Number_toString.
Qed.

End FallibleCacheHeaders.

(* ================================================================= *)
(** * The order of the calls *)

Section CallOrder.

Context {ApiSite : Type}.
Variable env : Collaborators ApiSite.


End CallOrder.

(* ================================================================= *)
(** * Worked examples: calls that throw, numbers that print oddly *)

Section FallibleExamples.

Import Sample.

(** Provider 2 throws before yielding a promise: the [map] stops there,
    provider 3 is never asked, and the answer is the error response. *)
Example run_search_throws :
  Fallible.GET FallibleSample.env_search_throws bob
  = ([ Fallible.CallGetCacheTime; Fallible.CallGetStorage;
       Fallible.CallGetUserSettings "bob";
       Fallible.CallGetAvailableApiSites true;
       Fallible.CallSearchFromApi 1 "abc"; Fallible.CallSearchFromApi 2 "abc";
       Fallible.CallNextResponseJson errorBody errorInit;
       Fallible.CallAddCorsHeaders (NextResponse_json errorBody errorInit) ],
     Returned (cors (NextResponse_json errorBody errorInit))).
Proof. reflexivity. Qed.

(** [addCorsHeaders] throws on the response of a successful search: the
    [catch] branch answers. *)
Example run_cors_refuses_200 :
  Fallible.outcome (Fallible.GET FallibleSample.env_cors_refuses_200 bob)
  = Returned (cors (NextResponse_json errorBody errorInit)).
Proof. reflexivity. Qed.

(** Results that [NextResponse.json] cannot serialize: again the [catch]
    branch answers. *)
Example run_unserializable :
  Fallible.outcome (Fallible.GET FallibleSample.env_unserializable bob)
  = Returned (cors (NextResponse_json errorBody errorInit)).
Proof. reflexivity. Qed.

(** A cache time of 10^21 is written as JavaScript prints it: no client
    reads seconds out of that. *)
Example run_sextillion :
  Headers_get
    (init_headers (Fallible.cacheHeaders FallibleSample.sextillion)) "Cache-Control"
  = Some "public, max-age=1e+21, s-maxage=1e+21"
  /\ durations (Some "public, max-age=1e+21, s-maxage=1e+21") = [None; None]
  /\ duration_texts (Some "public, max-age=1e+21, s-maxage=1e+21") = ["1e+21"; "1e+21"].
Proof. repeat split. Qed.

Lemma fallible_sample_cors_keeps_payload :
  Fallible.keeps_payload FallibleSample.env_search_throws.
Proof. intros r r' [= <-]. split; reflexivity. Qed.

Lemma fallible_sample_cors_keeps_cache_headers :
  Fallible.keeps_cache_headers FallibleSample.env_sextillion.
Proof.
  intros r r' name [= <-] Hin. now apply sample_cors_keeps_cache_headers.
Qed.

Lemma C4_error_response_witness :
  (In (Fallible.CallSearchFromApi 2 "abc")
      (Fallible.trace
         (Fallible.GET_try FallibleSample.env_search_throws bob "abc"
            FallibleSample.seconds))
   /\ Fallible.throws FallibleSample.env_search_throws
        (Fallible.CallSearchFromApi 2 "abc") = true
   /\ Fallible.getAvailableApiSites FallibleSample.env_search_throws true
      = Returned (Some [1; 2; 3]))
  /\ exists r,
       Fallible.outcome (Fallible.GET FallibleSample.env_search_throws bob) = Returned r
       /\ response_status r = 500%Z
       /\ prop (response_body r) "regular_results" = JsArray []
       /\ prop (response_body r) "adult_results" = JsArray []
       /\ exists message,
            prop (response_body r) "error" = JsString message /\ message <> "".
Proof.
  split; [split; [cbn; tauto|split; reflexivity]|].
  apply (C4_error_response FallibleSample.env_search_throws bob "abc"
           FallibleSample.seconds);
    [exact fallible_sample_cors_keeps_payload|reflexivity|discriminate|reflexivity| |].
  - exists (Fallible.CallSearchFromApi 2 "abc").
    split; [cbn; tauto|split; reflexivity].
  - eexists. reflexivity.
Defined.

Lemma C7_cache_headers_from_one_value_witness :
  Fallible.outcome (Fallible.GET FallibleSample.env_sextillion no_query)
  = Returned (cors (NextResponse_json emptyBody
                      (Fallible.cacheHeaders FallibleSample.sextillion)))
  /\ exists cacheTime,
       Fallible.getCacheTime FallibleSample.env_sextillion = Returned cacheTime
       /\ Fallible.cache_time_calls
            (Fallible.trace (Fallible.GET FallibleSample.env_sextillion no_query)) = 1
       /\ Fallible.has_cache_headers
            (cors (NextResponse_json emptyBody
                     (Fallible.cacheHeaders FallibleSample.sextillion)))
            cacheTime
       /\ duration_texts
            (Headers_get
               (response_headers
                  (cors (NextResponse_json emptyBody
                           (Fallible.cacheHeaders FallibleSample.sextillion))))
               "Cache-Control")
          = [Fallible.Number_toString cacheTime; Fallible.Number_toString cacheTime]
       /\ duration_texts
            (Headers_get
               (response_headers
                  (cors (NextResponse_json emptyBody
                           (Fallible.cacheHeaders FallibleSample.sextillion))))
               "CDN-Cache-Control")
          = [Fallible.Number_toString cacheTime]
       /\ duration_texts
            (Headers_get
               (response_headers
                  (cors (NextResponse_json emptyBody
                           (Fallible.cacheHeaders FallibleSample.sextillion))))
               "Vercel-CDN-Cache-Control")
          = [Fallible.Number_toString cacheTime]
       /\ forall n safe,
            cacheTime = Fallible.SafeInteger n safe ->
            durations
              (Headers_get
                 (response_headers
                    (cors (NextResponse_json emptyBody
                             (Fallible.cacheHeaders FallibleSample.sextillion))))
                 "Cache-Control")
            = [Some n; Some n]
            /\ durations
                 (Headers_get
                    (response_headers
                       (cors (NextResponse_json emptyBody
                                (Fallible.cacheHeaders FallibleSample.sextillion))))
                    "CDN-Cache-Control")
               = [Some n]
            /\ durations
                 (Headers_get
                    (response_headers
                       (cors (NextResponse_json emptyBody
                                (Fallible.cacheHeaders FallibleSample.sextillion))))
                    "Vercel-CDN-Cache-Control")
               = [Some n].
Proof.
  split; [reflexivity|].
  apply (C7_cache_headers_from_one_value FallibleSample.env_sextillion no_query);
    [exact fallible_sample_cors_keeps_payload
    |exact fallible_sample_cors_keeps_cache_headers
    |reflexivity|reflexivity].
Defined.

Lemma status_is_200_or_500_witness :
  Fallible.outcome (Fallible.GET FallibleSample.env_search_throws bob)
  = Returned (cors (NextResponse_json errorBody errorInit))
  /\ (response_status (cors (NextResponse_json errorBody errorInit)) = 200%Z
      \/ response_status (cors (NextResponse_json errorBody errorInit)) = 500%Z)
  /\ (response_status (cors (NextResponse_json errorBody errorInit)) = 500%Z
      <-> prop (response_body (cors (NextResponse_json errorBody errorInit))) "error"
          <> JsUndefined)
  /\ (response_status (cors (NextResponse_json errorBody errorInit)) = 500%Z
      <-> exists q cacheTime,
            query bob = Some q /\ q <> ""
            /\ Fallible.getCacheTime FallibleSample.env_search_throws
               = Returned cacheTime
            /\ exists e,
                 In e (Fallible.trace
                         (Fallible.GET_try FallibleSample.env_search_throws bob q
                            cacheTime))
                 /\ Fallible.throws FallibleSample.env_search_throws e = true
                 /\ Fallible.is_settings_lookup e = false).
Proof.
  split; [reflexivity|].
  apply (status_is_200_or_500 FallibleSample.env_search_throws bob);
    [exact fallible_sample_cors_keeps_payload|reflexivity].
Defined.

Lemma handler_throws_iff_cache_time_throws_witness :
  Fallible.outcome (Fallible.GET_try FallibleSample.env_search_throws bob "abc"
                      FallibleSample.seconds) = Thrown
  /\ (Fallible.outcome (Fallible.GET FallibleSample.env_search_throws bob) = Thrown
      <-> Fallible.getCacheTime FallibleSample.env_search_throws = Thrown)
  /\ (Fallible.getCacheTime FallibleSample.env_search_throws = Thrown ->
      Fallible.trace (Fallible.GET FallibleSample.env_search_throws bob)
      = [Fallible.CallGetCacheTime]).
Proof.
  split; [reflexivity|].
  apply (handler_throws_iff_cache_time_throws FallibleSample.env_search_throws bob).
  - intros cacheTime. eexists. reflexivity.
  - eexists. reflexivity.
Defined.


End FallibleExamples.

(* ================================================================= *)
(** * The two translations agree *)

Section Agreement.

Context {ApiSite : Type}.
Variable env : Collaborators ApiSite.

Lemma typed_trace_app (t u : list (Fallible.Event ApiSite)) :
  typed_trace (t ++ u) = typed_trace t ++ typed_trace u.
Proof. apply flat_map_app. Qed.

Lemma agree_shouldFilterAdult (number : Outcome Fallible.Number) (u : option string) :
  Fallible.outcome (Fallible.shouldFilterAdult (as_fallible env number) u)
  = outcome (shouldFilterAdult env u)
  /\ typed_trace (Fallible.trace (Fallible.shouldFilterAdult (as_fallible env number) u))
     = trace (shouldFilterAdult env u).
Proof.
  unfold Fallible.shouldFilterAdult, shouldFilterAdult.
  destruct u as [name|]; [|split; reflexivity].
  destruct (truthy (Some name)); [|split; reflexivity].
  unfold Fallible.bind, Fallible.call, Fallible.try_catch, Fallible.ret,
    bind, call, try_catch, ret.
  cbn [as_fallible Fallible.getStorage fst snd app].
  destruct (getStorage env) as [storage|]; [|split; reflexivity].
  destruct (getUserSettings storage name); split; reflexivity.
Qed.

Lemma agree_finalShouldFilter (number : Outcome Fallible.Number) (request : Request) :
  exists t,
    Fallible.finalShouldFilter (as_fallible env number) request
    = (t, Returned (policy env request))
    /\ typed_trace t = trace (shouldFilterAdult env (userName request)).
Proof.
  destruct (agree_shouldFilterAdult number (userName request)) as (Ho & Ht).
  destruct (shouldFilterAdult_eta env (userName request)) as (b & Hb).
  rewrite Hb in Ho. cbn [outcome snd] in Ho.
  unfold Fallible.finalShouldFilter.
  destruct (Fallible.shouldFilterAdult (as_fallible env number) (userName request))
    as [t o].
  cbn [Fallible.outcome Fallible.trace fst snd] in *. subst o.
  exists t. split; [|exact Ht].
  rewrite (policy_eq env request b); [|now rewrite Hb].
  cbn. now rewrite app_nil_r.
Qed.

Lemma agree_fan_out (number : Outcome Fallible.Number) (q : string)
  (sites : list ApiSite) :
  Fallible.Array_map
    (fun site => Fallible.call (Fallible.CallSearchFromApi site q)
                               (Fallible.searchFromApi (as_fallible env number) site q))
    sites
  = (map (fun site => Fallible.CallSearchFromApi site q) sites,
     Returned (map (fun site => searchFromApi env site q) sites)).
Proof.
  induction sites as [|site rest IH]; [reflexivity|].
  cbn [Fallible.Array_map map]. rewrite IH.
  cbn. now rewrite app_nil_r.
Qed.

Lemma agree_searchResults (number : Outcome Fallible.Number)
  (sites : list ApiSite) (q : string) :
  Fallible.searchResults (as_fallible env number) sites q
  = (map (fun site => Fallible.CallSearchFromApi site q) sites,
     Returned (concat (fulfilled_lists env q sites))).
Proof.
  unfold Fallible.searchResults. rewrite agree_fan_out.
  cbn. now rewrite app_nil_r, merge_fulfilled.
Qed.

Lemma agree_respond (number : Outcome Fallible.Number) (body : JsValue)
  (init : ResponseInit) :
  Fallible.respond (as_fallible env number) body init
  = ([ Fallible.CallNextResponseJson body init;
       Fallible.CallAddCorsHeaders (NextResponse_json body init) ],
     Returned (addCorsHeaders env (NextResponse_json body init))).
Proof. reflexivity. Qed.

Lemma typed_trace_fan_out (q : string) (sites : list ApiSite) :
  typed_trace (map (fun site => Fallible.CallSearchFromApi site q) sites)
  = map (fun site => CallSearchFromApi site q) sites.
Proof.
  induction sites as [|site rest IH]; [reflexivity|].
  cbn. now rewrite <- IH.
Qed.

Lemma agree_cacheHeaders (z : Z) (n : Fallible.Number) :
  Fallible.Number_toString n = Number_toString z ->
  Fallible.cacheHeaders n = cacheHeaders z.
Proof. intros H. unfold Fallible.cacheHeaders, cacheHeaders. now rewrite H. Qed.

Lemma agree_GET_try (number : Outcome Fallible.Number) (request : Request)
  (q : string) (n : Fallible.Number) :
  exists lookup,
    typed_trace lookup = trace (shouldFilterAdult env (userName request))
    /\ Fallible.GET_try (as_fallible env number) request q n
       = match getAvailableApiSites env (policy env request) with
         | Thrown =>
             (lookup ++ [Fallible.CallGetAvailableApiSites (policy env request)],
              Thrown)
         | Returned availableSites =>
             let sites := provider_list availableSites in
             let body := resultsBody (concat (fulfilled_lists env q sites)) in
             let init := Fallible.cacheHeaders n in
             (lookup ++ [Fallible.CallGetAvailableApiSites (policy env request)]
                ++ map (fun site => Fallible.CallSearchFromApi site q) sites
                ++ [ Fallible.CallNextResponseJson body init;
                     Fallible.CallAddCorsHeaders (NextResponse_json body init) ],
              Returned (addCorsHeaders env (NextResponse_json body init)))
         end.
Proof.
  destruct (agree_finalShouldFilter number request) as (t & Hf & Ht).
  exists t. split; [exact Ht|].
  unfold Fallible.GET_try. rewrite Hf, fallible_bind_returned.
  unfold Fallible.call. cbn [as_fallible Fallible.getAvailableApiSites].
  destruct (getAvailableApiSites env (policy env request)) as [[sites|]|];
    cbv zeta; cbn [provider_list].
  - rewrite fallible_bind_returned.
    destruct sites as [|site rest]; cbn [noSites List.length Nat.eqb].
    + rewrite agree_respond. reflexivity.
    + rewrite agree_searchResults, fallible_bind_returned, agree_respond.
      cbn [Fallible.trace Fallible.outcome fst snd]. reflexivity.
  - rewrite fallible_bind_returned, agree_respond. reflexivity.
  - reflexivity.
Qed.

Lemma typed_trace_cons (e : Fallible.Event ApiSite) (t : list (Fallible.Event ApiSite)) :
  typed_trace (e :: t) = typed_event e ++ typed_trace t.
Proof. reflexivity. Qed.

Ltac agree_traces :=
  repeat (rewrite typed_trace_cons || rewrite typed_trace_app);
  rewrite ?typed_trace_fan_out;
  repeat match goal with
         | H : typed_trace _ = trace _ |- _ => rewrite H
         end;
  cbn [typed_event typed_trace flat_map map app];
  rewrite ?app_nil_r; reflexivity.

(** Run with collaborators that keep to their types, the fallible
    handler gives the response of the typed one, after the same calls. *)
Lemma typed_handler_is_fallible_handler (number : Outcome Fallible.Number)
  (request : Request) :
  prints_alike (getCacheTime env) number ->
  Fallible.outcome (Fallible.GET (as_fallible env number) request)
  = outcome (GET env request)
  /\ typed_trace (Fallible.trace (Fallible.GET (as_fallible env number) request))
     = trace (GET env request).
Proof.
  intros Hp. unfold prints_alike in Hp.
  destruct (getCacheTime env) as [z|] eqn:Hz; destruct number as [n|];
    try contradiction.
  - destruct (truthy (query request)) eqn:Hq.
    + destruct (query request) as [q|] eqn:Hq'; [|discriminate].
      assert (q <> "") as Hne.
      { cbn in Hq. apply negb_true_iff in Hq. now apply String.eqb_neq. }
      rewrite (GET_run env request q z Hq' Hne Hz). cbv zeta.
      rewrite (fallible_GET_query (as_fallible env (Returned n)) request q n
                 Hq' Hne eq_refl).
      destruct (agree_GET_try (Returned n) request q n) as (t & Ht & ->).
      unfold Fallible.GET_catch. rewrite agree_respond.
      rewrite (agree_cacheHeaders z n Hp).
      destruct (getAvailableApiSites env (policy env request)) as [sites|];
        cbv zeta; cbn [Fallible.outcome Fallible.trace fst snd outcome trace];
        (split; [reflexivity|agree_traces]).
    + rewrite (GET_no_query env request z Hq Hz).
      rewrite (fallible_GET_no_query (as_fallible env (Returned n)) request n Hq eq_refl).
      rewrite agree_respond, (agree_cacheHeaders z n Hp). split; reflexivity.
  - rewrite (GET_cache_thrown env request Hz).
    rewrite (fallible_GET_cache_thrown (as_fallible env Thrown) request eq_refl).
    split; reflexivity.
Qed.

End Agreement.
